(** * Memoix ingredient database builder

    A shallow embedding of the classification engine of
    [tools/build_ingredients_db.py]: the category registry, the two ordered
    rule tables, the ingredient filter, the two matchers and the per-row
    loop of [build_database], followed by the properties of the engine. *)

From Stdlib Require Import ZArith NArith List Bool Ascii String Lia.
From Stdlib Require Import Floats.SpecFloat.
From stdpp Require Import base option list gmap strings.
Import ListNotations.

Local Open Scope Z_scope.

(** ** Python text

    A Python [str] is a sequence of Unicode code points; [len] counts code
    points and [in] compares them, so a [str] is a list of code points. *)

Abbreviation char := N (only parsing).
Abbreviation str := (list N) (only parsing).

(** An ASCII literal of the source as a [str]. *)
Fixpoint u (s : string) : str :=
  match s with
  | EmptyString => []
  | String a s' => N_of_ascii a :: u s'
  end.
Arguments u s%_string.

(** [s.startswith(prefix)], the test [in] makes at each offset. *)
Fixpoint startswith (s prefix : str) : bool :=
  match prefix, s with
  | [], _ => true
  | _ :: _, [] => false
  | p :: prefix', c :: s' => (p =? c)%N && startswith s' prefix'
  end.

(** [sub in s] on two [str]: [sub] occurs in [s] as a contiguous run. *)
Fixpoint str_in (sub s : str) : bool :=
  startswith s sub ||
  match s with
  | [] => false
  | _ :: s' => str_in sub s'
  end.

(** ** Category registry (CATEGORIES, CAT, UNKNOWN) *)

Definition CATEGORIES : list str :=
  [ u "produce"; u "meat"; u "poultry"; u "seafood"; u "egg"; u "cheese";
    u "dairy"; u "grain"; u "pasta"; u "legume"; u "nut"; u "spice";
    u "condiment"; u "oil"; u "vinegar"; u "flour"; u "sugar"; u "leavening";
    u "alcohol"; u "pop"; u "juice"; u "beverage"; u "unknown"; u "pantry" ].

(** [enumerate(l)]: the elements of [l] paired with their positions. *)
Definition enumerate {A} (l : list A) : list (Z * A) :=
  combine (map Z.of_nat (seq 0 (length l))) l.

(** [CAT = {cat: i for i, cat in enumerate(CATEGORIES)}]: the entries are
    stored in list order, a later one replacing an earlier one of the same
    name. *)
Definition CAT : gmap (list N) Z :=
  fold_left (fun m '(i, cat) => <[cat := i]> m) (enumerate CATEGORIES) ∅.

(** [UNKNOWN = CAT["unknown"]]. The subscript raises [KeyError] on a missing
    key; the key is present, see [UNKNOWN_eq]. *)
Definition UNKNOWN : Z :=
  match CAT !! u "unknown" with
  | Some i => i
  | None => -1
  end.

(** [CAT.get(cat, dflt)]. *)
Definition CAT_get (cat : str) (dflt : Z) : Z := default dflt (CAT !! cat).

(** [l[idx]] on a list: a negative index counts from the end, and [None]
    stands for [IndexError]. *)
Definition py_getitem {A : Type} (l : list A) (idx : Z) : option A :=
  if 0 <=? idx then nth_error l (Z.to_nat idx)
  else if 0 <=? Z.of_nat (length l) + idx
       then nth_error l (Z.to_nat (Z.of_nat (length l) + idx))
       else None.

(** One round of the distribution loop of [build_database]:
    [cat_name = CATEGORIES[idx] if idx < len(CATEGORIES) else "unknown"],
    then [dist[cat_name] = dist.get(cat_name, 0) + 1]. *)
Definition count_category (dist : gmap (list N) Z) (idx : Z)
  : option (gmap (list N) Z) :=
  match (if idx <? Z.of_nat (length CATEGORIES)
         then py_getitem CATEGORIES idx
         else Some (u "unknown")) with
  | Some cat_name => Some (<[cat_name := default 0 (dist !! cat_name) + 1]> dist)
  | None => None
  end.

(** The loop [for idx in category_db.values()], over the values in the
    order the dictionary yields them. *)
Fixpoint category_distribution (values : list Z) (dist : gmap (list N) Z)
  : option (gmap (list N) Z) :=
  match values with
  | [] => Some dist
  | idx :: rest =>
      match count_category dist idx with
      | Some dist' => category_distribution rest dist'
      | None => None
      end
  end.

(** The lines of the distribution report: the categories of positive
    count, in the order of [CATEGORIES]. *)
Definition printed_distribution (dist : gmap (list N) Z) : list (str * Z) :=
  List.filter (fun line => 0 <? snd line)
    (map (fun cat_name => (cat_name, default 0 (dist !! cat_name))) CATEGORIES).

(** The sum of the counts of report lines. *)
Definition sum_counts (lines : list (list N * Z)) : Z :=
  fold_right Z.add 0 (map snd lines).

(** The counts of a distribution over a list of names. *)
Definition counts_over (names : list (list N)) (dist : gmap (list N) Z) : Z :=
  fold_right Z.add 0 (map (fun c => default 0 (dist !! c)) names).

(** A distribution that counts registered categories other than unknown,
    each a positive number of times. *)
Definition sound_distribution (dist : gmap (list N) Z) : Prop :=
  dist !! u "unknown" = None /\
  forall c k, dist !! c = Some k -> In c CATEGORIES /\ 0 < k.

(** ** Name rule table (KEYWORD_RULES), in source order *)

Definition KEYWORD_RULES : list (list str * str) :=
  [
    ([u "stock"], u "pantry");
    ([u "vegetable stock"], u "pantry");
    ([u "chicken stock"], u "pantry");
    ([u "beef stock"], u "pantry");
    ([u "]chicken broth"], u "pantry");
    ([u "]beef broth"], u "pantry");
    ([u "]vegetable broth"], u "pantry");
    ([u "bouillon"], u "pantry");
    ([u "tomato sauce"], u "pantry");
    ([u "tomato puree"], u "pantry");
    ([u "sun-dried tomato"], u "pantry");
    ([u "sundried tomato"], u "pantry");
    ([u "sun dried tomato"], u "pantry");
    ([u "canned tomato"], u "pantry");
    ([u "diced tomato"], u "pantry");
    ([u "crushed tomato"], u "pantry");
    ([u "whole tomato"], u "pantry");
    ([u "roasted pepper"], u "pantry");
    ([u "artichoke heart"], u "pantry");
    ([u "olive"], u "pantry");
    ([u "caper"], u "pantry");
    ([u "pickle"], u "pantry");
    ([u "gherkin"], u "pantry");
    ([u "coconut cream"], u "pantry");
    ([u "coconut milk"], u "pantry");
    ([u "anchovy paste"], u "pantry");
    ([u "chipotle"], u "pantry");
    ([u "harissa"], u "pantry");
    ([u "gochujang"], u "pantry");
    ([u "doubanjiang"], u "pantry");
    ([u "doenjang"], u "pantry");
    ([u "preserved mustard"], u "pantry");
    ([u "sesame paste"], u "pantry");
    ([u "dashi"], u "pantry");
    ([u "bonito"], u "pantry");
    ([u "kombu"], u "pantry");
    ([u "nori"], u "pantry");
    ([u "seaweed"], u "pantry");
    ([u "dried shrimp"], u "pantry");
    ([u "shrimp paste"], u "pantry");
    ([u "fish paste"], u "pantry");
    ([u "curry paste"], u "pantry");
    ([u "bean paste"], u "pantry");
    ([u "chili paste"], u "pantry");
    ([u "miso"], u "pantry");
    ([u "]kimchi"], u "pantry");
    ([u "tahini"], u "pantry");
    ([u "pesto"], u "pantry");
    ([u "hoisin"], u "condiment");
    ([u "tomato ketchup"], u "condiment");
    ([u "soy sauce"], u "condiment");
    ([u "fish sauce"], u "condiment");
    ([u "hot sauce"], u "condiment");
    ([u "barbecue sauce"], u "condiment");
    ([u "bbq sauce"], u "condiment");
    ([u "teriyaki"], u "condiment");
    ([u "]steak sauce"], u "condiment");
    ([u "hoisin"], u "condiment");
    ([u "oyster sauce"], u "condiment");
    ([u "worcestershire"], u "condiment");
    ([u "sriracha"], u "condiment");
    ([u "mustard"], u "condiment");
    ([u "mayonnaise"], u "condiment");
    ([u "ketchup"], u "condiment");
    ([u "salsa"], u "condiment");
    ([u "pesto"], u "condiment");
    ([u "miso"], u "condiment");
    ([u "tahini"], u "condiment");
    ([u "sambal"], u "condiment");
    ([u "chutney"], u "condiment");
    ([u "relish"], u "condiment");
    ([u "dressing"], u "condiment");
    ([u "peanut butter"], u "pantry");
    ([u "almond butter"], u "pantry");
    ([u "cashew butter"], u "pantry");
    ([u "nutella"], u "pantry");
    ([u "hazelnut spread"], u "pantry");
    ([u "]oyster mushroom sauce"], u "pantry");
    ([u "]starch water"], u "pantry");
    ([u "]stick rice flour"], u "pantry");
    ([u "]wakame"], u "pantry");
    ([u "cream cheese"], u "cheese");
    ([u "goat cheese"], u "cheese");
    ([u "blue cheese"], u "cheese");
    ([u "cottage cheese"], u "cheese");
    ([u "almond milk"], u "pantry");
    ([u "oat milk"], u "pantry");
    ([u "soy milk"], u "pantry");
    ([u "olive oil"], u "oil");
    ([u "sesame oil"], u "oil");
    ([u "coconut oil"], u "oil");
    ([u "canola oil"], u "oil");
    ([u "vegetable oil"], u "oil");
    ([u "sunflower oil"], u "oil");
    ([u "avocado oil"], u "oil");
    ([u "truffle oil"], u "oil");
    ([u "balsamic vinegar"], u "vinegar");
    ([u "red wine vinegar"], u "vinegar");
    ([u "white wine vinegar"], u "vinegar");
    ([u "apple cider vinegar"], u "vinegar");
    ([u "rice vinegar"], u "vinegar");
    ([u "sherry vinegar"], u "vinegar");
    ([u "lemon juice"], u "juice");
    ([u "lime juice"], u "juice");
    ([u "orange juice"], u "juice");
    ([u "apple juice"], u "juice");
    ([u "cranberry juice"], u "juice");
    ([u "grapefruit juice"], u "juice");
    ([u "pomegranate juice"], u "juice");
    ([u "maple syrup"], u "sugar");
    ([u "corn syrup"], u "sugar");
    ([u "agave"], u "sugar");
    ([u "molasses"], u "sugar");
    ([u "vanilla extract"], u "sugar");
    ([u "cocoa powder"], u "sugar");
    ([u "baking powder"], u "leavening");
    ([u "baking soda"], u "leavening");
    ([u "bicarbonate"], u "leavening");
    ([u "yeast"], u "leavening");
    ([u "cream of tartar"], u "leavening");
    ([u "gelatin"], u "leavening");
    ([u "agar"], u "leavening");
    ([u "pectin"], u "leavening");
    ([u "bread flour"], u "flour");
    ([u "all-purpose flour"], u "flour");
    ([u "all purpose flour"], u "flour");
    ([u "cake flour"], u "flour");
    ([u "pastry flour"], u "flour");
    ([u "self-raising flour"], u "flour");
    ([u "self raising flour"], u "flour");
    ([u "whole wheat flour"], u "flour");
    ([u "vital wheat gluten"], u "flour");
    ([u "wheat gluten"], u "flour");
    ([u "vital gluten"], u "flour");
    ([u "]shortening"], u "flour");
    ([u "]cornstarch"], u "flour");
    ([u "corn starch"], u "flour");
    ([u "cornflour"], u "flour");
    ([u "almond flour"], u "flour");
    ([u "rice flour"], u "flour");
    ([u "tapioca"], u "flour");
    ([u "arrowroot"], u "flour");
    ([u "semolina"], u "flour");
    ([u "brown sugar"], u "sugar");
    ([u "powdered sugar"], u "sugar");
    ([u "icing sugar"], u "sugar");
    ([u "confectioner"], u "sugar");
    ([u "demerara"], u "sugar");
    ([u "turbinado"], u "sugar");
    ([u "muscovado"], u "sugar");
    ([u "caster sugar"], u "sugar");
    ([u "granulated sugar"], u "sugar");
    ([u "dark chocolate"], u "sugar");
    ([u "white chocolate"], u "sugar");
    ([u "milk chocolate"], u "sugar");
    ([u "chocolate chip"], u "sugar");
    ([u "ground beef"], u "meat");
    ([u "ground pork"], u "meat");
    ([u "ground turkey"], u "poultry");
    ([u "ground chicken"], u "poultry");
    ([u "sweet potato"], u "produce");
    ([u "green bean"], u "produce");
    ([u "bell pepper"], u "produce");
    ([u "banana"], u "produce");
    ([u "strawberry"], u "produce");
    ([u "blueberry"], u "produce");
    ([u "raspberry"], u "produce");
    ([u "blackberry"], u "produce");
    ([u "grape"], u "produce");
    ([u "peach"], u "produce");
    ([u "pear"], u "produce");
    ([u "cherry"], u "produce");
    ([u "plum"], u "produce");
    ([u "watermelon"], u "produce");
    ([u "cantaloupe"], u "produce");
    ([u "honeydew"], u "produce");
    ([u "mango"], u "produce");
    ([u "pineapple"], u "produce");
    ([u "kiwi"], u "produce");
    ([u "papaya"], u "produce");
    ([u "ya cai"], u "produce");
    ([u "leek"], u "produce");
    ([u "shiitake"], u "produce");
    ([u "enoki"], u "produce");
    ([u "portobello"], u "produce");
    ([u "bok choy"], u "produce");
    ([u "napa cabbage"], u "produce");
    ([u "radish"], u "produce");
    ([u "turnip"], u "produce");
    ([u "beet"], u "produce");
    ([u "watercress"], u "produce");
    ([u "arugula"], u "produce");
    ([u "endive"], u "produce");
    ([u "radicchio"], u "produce");
    ([u "rhubarb"], u "produce");
    ([u "plantain"], u "produce");
    ([u "fig"], u "produce");
    ([u "guava"], u "produce");
    ([u "lemon zest"], u "produce");
    ([u "lime zest"], u "produce");
    ([u "orange zest"], u "produce");
    ([u "black bean"], u "legume");
    ([u "kidney bean"], u "legume");
    ([u "pinto bean"], u "legume");
    ([u "navy bean"], u "legume");
    ([u "chickpea"], u "legume");
    ([u "lentil"], u "legume");
    ([u "pine nut"], u "nut");
    ([u "sesame seed"], u "nut");
    ([u "sunflower seed"], u "nut");
    ([u "pumpkin seed"], u "nut");
    ([u "poppy seed"], u "nut");
    ([u "flax seed"], u "nut");
    ([u "chia seed"], u "nut");
    ([u "red wine"], u "alcohol");
    ([u "white wine"], u "alcohol");
    ([u "rice wine"], u "alcohol");
    ([u "kosher salt"], u "spice");
    ([u "sea salt"], u "spice");
    ([u "maldon salt"], u "spice");
    ([u "fine salt"], u "spice");
    ([u "table salt"], u "spice");
    ([u "fleur de sel"], u "spice");
    ([u "black pepper"], u "spice");
    ([u "white pepper"], u "spice");
    ([u "cayenne pepper"], u "spice");
    ([u "chili flake"], u "spice");
    ([u "red pepper flake"], u "spice");
    ([u "chili powder"], u "spice");
    ([u "curry powder"], u "spice");
    ([u "garam masala"], u "spice");
    ([u "italian seasoning"], u "spice");
    ([u "five spice"], u "spice");
    ([u "onion powder"], u "spice");
    ([u "garlic powder"], u "spice");
    ([u "heavy cream"], u "dairy");
    ([u "whipping cream"], u "dairy");
    ([u "sour cream"], u "dairy");
    ([u "half and half"], u "dairy");
    ([(u "cr" ++ [232%N] ++ u "me fra" ++ [238%N] ++ u "che")], u "dairy");
    ([u "creme fraiche"], u "dairy");
    ([u "evaporated milk"], u "dairy");
    ([u "condensed milk"], u "dairy");
    ([u "buttermilk"], u "dairy");
    ([u "wine"], u "alcohol");
    ([u "beer"], u "alcohol");
    ([u "ale"], u "alcohol");
    ([u "lager"], u "alcohol");
    ([u "stout"], u "alcohol");
    ([u "brandy"], u "alcohol");
    ([u "cognac"], u "alcohol");
    ([u "rum"], u "alcohol");
    ([u "vodka"], u "alcohol");
    ([u "whiskey"], u "alcohol");
    ([u "whisky"], u "alcohol");
    ([u "bourbon"], u "alcohol");
    ([u "tequila"], u "alcohol");
    ([u "gin"], u "alcohol");
    ([u "sake"], u "alcohol");
    ([u "mirin"], u "alcohol");
    ([u "sherry"], u "alcohol");
    ([u "port"], u "alcohol");
    ([u "marsala"], u "alcohol");
    ([u "kahlua"], u "alcohol");
    ([u "amaretto"], u "alcohol");
    ([u "grappa"], u "alcohol");
    ([u "absinthe"], u "alcohol");
    ([u "vermouth"], u "alcohol");
    ([u "champagne"], u "alcohol");
    ([u "prosecco"], u "alcohol");
    ([u "cider"], u "alcohol");
    ([u "mead"], u "alcohol");
    ([u "liqueur"], u "alcohol");
    ([u "campari"], u "alcohol");
    ([u "aperol"], u "alcohol");
    ([u "cointreau"], u "alcohol");
    ([u "grand marnier"], u "alcohol");
    ([u "triple sec"], u "alcohol");
    ([u "limoncello"], u "alcohol");
    ([u "chartreuse"], u "alcohol");
    ([u "cola"], u "pop");
    ([u "soda"], u "pop");
    ([u "tonic"], u "pop");
    ([u "sprite"], u "pop");
    ([u "ginger ale"], u "pop");
    ([u "coffee"], u "beverage");
    ([u "tea"], u "beverage");
    ([u "broth"], u "beverage");
    ([u "stock"], u "beverage");
    ([u "water"], u "beverage");
    ([u "juice"], u "juice");
    ([u "beef"], u "meat");
    ([u "steak"], u "meat");
    ([u "pork"], u "meat");
    ([u "bacon"], u "meat");
    ([u "ham"], u "meat");
    ([u "prosciutto"], u "meat");
    ([u "pancetta"], u "meat");
    ([u "guanciale"], u "meat");
    ([u "chorizo"], u "meat");
    ([u "sausage"], u "meat");
    ([u "salami"], u "meat");
    ([u "pepperoni"], u "meat");
    ([u "lamb"], u "meat");
    ([u "veal"], u "meat");
    ([u "venison"], u "meat");
    ([u "bison"], u "meat");
    ([u "rabbit"], u "meat");
    ([u "lardon"], u "meat");
    ([u "bresaola"], u "meat");
    ([u "nduja"], u "meat");
    ([u "short ribs"], u "meat");
    ([u "slab ribs"], u "meat");
    ([u "spare ribs"], u "meat");
    ([u "beef ribs"], u "meat");
    ([u "pork ribs"], u "meat");
    ([u "oxtail"], u "meat");
    ([u "tongue"], u "meat");
    ([u "liver"], u "meat");
    ([u "kidney"], u "meat");
    ([u "heart"], u "meat");
    ([u "offal"], u "meat");
    ([u "chicken"], u "poultry");
    ([u "turkey"], u "poultry");
    ([u "duck"], u "poultry");
    ([u "goose"], u "poultry");
    ([u "quail"], u "poultry");
    ([u "salmon"], u "seafood");
    ([u "tuna"], u "seafood");
    ([u "shrimp"], u "seafood");
    ([u "prawn"], u "seafood");
    ([u "crab"], u "seafood");
    ([u "lobster"], u "seafood");
    ([u "scallop"], u "seafood");
    ([u "mussel"], u "seafood");
    ([u "clam"], u "seafood");
    ([u "oyster"], u "seafood");
    ([u "anchovy"], u "seafood");
    ([u "sardine"], u "seafood");
    ([u "cod"], u "seafood");
    ([u "halibut"], u "seafood");
    ([u "tilapia"], u "seafood");
    ([u "trout"], u "seafood");
    ([u "bass"], u "seafood");
    ([u "mackerel"], u "seafood");
    ([u "squid"], u "seafood");
    ([u "calamari"], u "seafood");
    ([u "octopus"], u "seafood");
    ([u "fish"], u "seafood");
    ([u "seafood"], u "seafood");
    ([u "crustacean"], u "seafood");
    ([u "egg"], u "egg");
    ([u "cheese"], u "cheese");
    ([u "cheddar"], u "cheese");
    ([u "parmesan"], u "cheese");
    ([u "parmigiano"], u "cheese");
    ([u "mozzarella"], u "cheese");
    ([u "gruyere"], u "cheese");
    ([(u "gruy" ++ [232%N] ++ u "re")], u "cheese");
    ([u "feta"], u "cheese");
    ([u "brie"], u "cheese");
    ([u "camembert"], u "cheese");
    ([u "gouda"], u "cheese");
    ([u "ricotta"], u "cheese");
    ([u "mascarpone"], u "cheese");
    ([u "pecorino"], u "cheese");
    ([u "emmental"], u "cheese");
    ([u "havarti"], u "cheese");
    ([u "provolone"], u "cheese");
    ([u "halloumi"], u "cheese");
    ([u "burrata"], u "cheese");
    ([u "paneer"], u "cheese");
    ([u "manchego"], u "cheese");
    ([u "roquefort"], u "cheese");
    ([u "gorgonzola"], u "cheese");
    ([u "stilton"], u "cheese");
    ([u "milk"], u "dairy");
    ([u "butter"], u "dairy");
    ([u "cream"], u "dairy");
    ([u "yogurt"], u "dairy");
    ([u "yoghurt"], u "dairy");
    ([u "dairy"], u "dairy");
    ([u "ghee"], u "dairy");
    ([u "rice"], u "grain");
    ([u "bread"], u "grain");
    ([u "sourdough"], u "grain");
    ([u "brioche"], u "grain");
    ([u "ciabatta"], u "grain");
    ([u "focaccia"], u "grain");
    ([u "pita"], u "grain");
    ([u "naan"], u "grain");
    ([u "baguette"], u "grain");
    ([u "oat"], u "grain");
    ([u "quinoa"], u "grain");
    ([u "barley"], u "grain");
    ([u "couscous"], u "grain");
    ([u "bulgur"], u "grain");
    ([u "millet"], u "grain");
    ([u "polenta"], u "grain");
    ([u "grits"], u "grain");
    ([u "breadcrumb"], u "grain");
    ([u "panko"], u "grain");
    ([u "tortilla"], u "grain");
    ([u "cracker"], u "grain");
    ([u "cereal"], u "grain");
    ([u "granola"], u "grain");
    ([u "pasta"], u "pasta");
    ([u "spaghetti"], u "pasta");
    ([u "penne"], u "pasta");
    ([u "rigatoni"], u "pasta");
    ([u "linguine"], u "pasta");
    ([u "fettuccine"], u "pasta");
    ([u "noodle"], u "pasta");
    ([u "lasagna"], u "pasta");
    ([u "lasagne"], u "pasta");
    ([u "macaroni"], u "pasta");
    ([u "orzo"], u "pasta");
    ([u "fusilli"], u "pasta");
    ([u "farfalle"], u "pasta");
    ([u "tagliatelle"], u "pasta");
    ([u "gnocchi"], u "pasta");
    ([u "ramen"], u "pasta");
    ([u "udon"], u "pasta");
    ([u "soba"], u "pasta");
    ([u "vermicelli"], u "pasta");
    ([u "ravioli"], u "pasta");
    ([u "tortellini"], u "pasta");
    ([u "bean"], u "legume");
    ([u "lentil"], u "legume");
    ([u "chickpea"], u "legume");
    ([u "tofu"], u "dairy");
    ([u "tempeh"], u "legume");
    ([u "edamame"], u "legume");
    ([u "almond"], u "nut");
    ([u "walnut"], u "nut");
    ([u "pecan"], u "nut");
    ([u "cashew"], u "nut");
    ([u "pistachio"], u "nut");
    ([u "peanut"], u "nut");
    ([u "hazelnut"], u "nut");
    ([u "macadamia"], u "nut");
    ([u "chestnut"], u "nut");
    ([u "coconut"], u "nut");
    ([u "salt"], u "spice");
    ([u "pepper"], u "spice");
    ([u "cumin"], u "spice");
    ([u "paprika"], u "spice");
    ([u "cayenne"], u "spice");
    ([u "cinnamon"], u "spice");
    ([u "nutmeg"], u "spice");
    ([u "oregano"], u "spice");
    ([u "turmeric"], u "spice");
    ([u "coriander"], u "spice");
    ([u "cardamom"], u "spice");
    ([u "clove"], u "spice");
    ([u "allspice"], u "spice");
    ([u "saffron"], u "spice");
    ([u "anise"], u "spice");
    ([u "fennel"], u "spice");
    ([u "]tsaoko"], u "spice");
    ([u "dill"], u "spice");
    ([u "thyme"], u "spice");
    ([u "rosemary"], u "spice");
    ([u "sage"], u "spice");
    ([u "basil"], u "spice");
    ([u "parsley"], u "spice");
    ([u "cilantro"], u "spice");
    ([u "mint"], u "spice");
    ([u "tarragon"], u "spice");
    ([u "chive"], u "spice");
    ([u "bay leaf"], u "spice");
    ([u "bay leaves"], u "spice");
    ([u "marjoram"], u "spice");
    ([u "five spice"], u "spice");
    ([u "gochugaru"], u "spice");
    ([u "sumac"], u "spice");
    ([u "zaatar"], u "spice");
    ([u "za'atar"], u "spice");
    ([u "lemongrass"], u "spice");
    ([u "fenugreek"], u "spice");
    ([u "msg"], u "spice");
    ([u "spice"], u "spice");
    ([u "seasoning"], u "spice");
    ([u "herb"], u "spice");
    ([u "sauce"], u "condiment");
    ([u "paste"], u "condiment");
    ([u "marinade"], u "condiment");
    ([u "glaze"], u "condiment");
    ([u "oil"], u "oil");
    ([u "vinegar"], u "vinegar");
    ([u "flour"], u "flour");
    ([u "starch"], u "flour");
    ([u "sugar"], u "sugar");
    ([u "honey"], u "sugar");
    ([u "syrup"], u "sugar");
    ([u "chocolate"], u "sugar");
    ([u "candy"], u "sugar");
    ([u "caramel"], u "sugar");
    ([u "jam"], u "sugar");
    ([u "jelly"], u "sugar");
    ([u "marmalade"], u "sugar");
    ([u "vanilla"], u "sugar")
  ].

(** ** Category-field rule table (OFF_CATEGORY_MAP); [None] is the
    source's [None] target, a rule that matches and asserts no category. *)

Definition OFF_CATEGORY_MAP : list (str * option str) :=
  [
    (u "plant-based", None);
    (u "breakfast cereal", Some (u "grain"));
    (u "ice cream", Some (u "dairy"));
    (u "frozen meal", None);
    (u "ready meal", None);
    (u "meat", Some (u "meat"));
    (u "ham", Some (u "meat"));
    (u "beef", Some (u "meat"));
    (u "pork", Some (u "meat"));
    (u "sausage", Some (u "meat"));
    (u "deli", Some (u "meat"));
    (u "poultry", Some (u "poultry"));
    (u "chicken", Some (u "poultry"));
    (u "turkey", Some (u "poultry"));
    (u "fish", Some (u "seafood"));
    (u "seafood", Some (u "seafood"));
    (u "crustacean", Some (u "seafood"));
    (u "cheese", Some (u "cheese"));
    (u "dairy", Some (u "dairy"));
    (u "milk", Some (u "dairy"));
    (u "butter", Some (u "dairy"));
    (u "cream", Some (u "dairy"));
    (u "yogurt", Some (u "dairy"));
    (u "egg", Some (u "egg"));
    (u "bread", Some (u "grain"));
    (u "cereal", Some (u "grain"));
    (u "rice", Some (u "grain"));
    (u "grain", Some (u "grain"));
    (u "pasta", Some (u "pasta"));
    (u "noodle", Some (u "pasta"));
    (u "legume", Some (u "legume"));
    (u "bean", Some (u "legume"));
    (u "lentil", Some (u "legume"));
    (u "nut", Some (u "nut"));
    (u "seed", Some (u "nut"));
    (u "spice", Some (u "spice"));
    (u "herb", Some (u "spice"));
    (u "seasoning", Some (u "spice"));
    (u "sauce", Some (u "condiment"));
    (u "condiment", Some (u "condiment"));
    (u "dressing", Some (u "condiment"));
    (u "mustard", Some (u "condiment"));
    (u "ketchup", Some (u "condiment"));
    (u "oil", Some (u "oil"));
    (u "vinegar", Some (u "vinegar"));
    (u "flour", Some (u "flour"));
    (u "sugar", Some (u "sugar"));
    (u "sweetener", Some (u "sugar"));
    (u "honey", Some (u "sugar"));
    (u "syrup", Some (u "sugar"));
    (u "chocolate", Some (u "sugar"));
    (u "candy", Some (u "sugar"));
    (u "confectionery", Some (u "sugar"));
    (u "baking", Some (u "leavening"));
    (u "alcohol", Some (u "alcohol"));
    (u "wine", Some (u "alcohol"));
    (u "beer", Some (u "alcohol"));
    (u "spirit", Some (u "alcohol"));
    (u "soda", Some (u "pop"));
    (u "soft drink", Some (u "pop"));
    (u "juice", Some (u "juice"));
    (u "coffee", Some (u "beverage"));
    (u "tea", Some (u "beverage"));
    (u "water", Some (u "beverage"));
    (u "beverage", Some (u "beverage"));
    (u "drink", Some (u "beverage"));
    (u "snack", None);
    (u "frozen", None);
    (u "canned", None)
  ].

(** The [skip_words] list of [is_culinary_ingredient]. *)

Definition skip_words : list str :=
  [ u "pizza"; u "sandwich"; u "burger"; u "wrap";
    u "meal kit"; u "ready to eat"; u "frozen dinner"; u "tv dinner";
    u "microwave"; u "instant"; u "protein bar"; u "energy bar";
    u "snack bar"; u "chips"; u "crisps"; u "cookie";
    u "biscuit"; u "crouton"; u "popcorn"; u "pretzel" ].


(** ** The matchers *)

(** The loop of [classify_by_name] over a rule table: the first rule all of
    whose keywords are [in] the name returns its category. *)
Fixpoint first_name_rule (rules : list (list str * str)) (name : str)
  : option str :=
  match rules with
  | [] => None
  | (keywords, category) :: rest =>
      if forallb (fun kw => str_in kw name) keywords then Some category
      else first_name_rule rest name
  end.

Definition classify_by_name (name : str) : option str :=
  first_name_rule KEYWORD_RULES name.

(** The test the loop makes on one rule: [all(kw in name for kw in
    keywords)]. *)
Definition rule_matches (name : str) (rule : list str * str) : bool :=
  forallb (fun kw => str_in kw name) (fst rule).

(** Keywords and rules that begin with a closing bracket (code point 93). *)
Definition bracket_keyword (kw : str) : bool :=
  match kw with
  | c :: _ => (c =? 93)%N
  | [] => false
  end.

Definition bracket_rule (rule : list str * str) : bool :=
  existsb bracket_keyword (fst rule).

(** Every keyword of [early] occurs inside a keyword of [late]: on a name
    where [late] matches, [early] matches. *)
Definition shadows (early late : list str * str) : bool :=
  forallb (fun k => existsb (fun kw => str_in k kw) (fst late)) (fst early).

(** The rules of a table that a rule before them shadows, and the table
    without them; [seen] holds the rules passed so far. *)
Fixpoint shadowed_rules (seen rules : list (list str * str))
  : list (list str * str) :=
  match rules with
  | [] => []
  | r :: rest =>
      if existsb (fun e => shadows e r) seen
      then r :: shadowed_rules (r :: seen) rest
      else shadowed_rules (r :: seen) rest
  end.

Fixpoint strike_shadowed (seen rules : list (list str * str))
  : list (list str * str) :=
  match rules with
  | [] => []
  | r :: rest =>
      if existsb (fun e => shadows e r) seen
      then strike_shadowed (r :: seen) rest
      else r :: strike_shadowed (r :: seen) rest
  end.

(** The loop of [classify_by_off_category] over a rule table: the first rule
    whose keyword is [in] the text returns its target, which may be [None]. *)
Fixpoint first_off_rule (table : list (str * option str)) (off_cat : str)
  : option str :=
  match table with
  | [] => None
  | (keyword, category) :: rest =>
      if str_in keyword off_cat then category
      else first_off_rule rest off_cat
  end.

(** [classify_by_off_category] over a given table: [if not off_cat] returns
    before the loop. *)
Definition classify_by_off_category_in (table : list (str * option str))
  (off_cat : str) : option str :=
  match off_cat with
  | [] => None
  | _ :: _ => first_off_rule table off_cat
  end.

Definition classify_by_off_category (off_cat : str) : option str :=
  classify_by_off_category_in OFF_CATEGORY_MAP off_cat.

(** ** Builtins of the Python runtime

    The engine calls [str.lower], [str.strip], [re.search] with the class
    [\d], [float] and [round]. Their tables (Unicode case mapping, white
    space and decimal digits, the float grammar) belong to the interpreter,
    not to the repository, so the engine is stated over any implementation
    of them. *)

(** What [round(x)] on a float does: an [int], or one of two exceptions. *)
Inductive round_result :=
  | RoundInt (n : Z)
  | RoundValueError
  | RoundOverflowError.

Class PyBuiltins := {
  (** [s.lower()] *)
  str_lower : str -> str;
  (** [s.strip()] *)
  str_strip : str -> str;
  (** membership in the class [\d] of [re] on [str] patterns *)
  re_digit : N -> bool;
  (** the values of type [float] *)
  pyfloat : Type;
  (** [float(s)]; [None] when it raises [ValueError] *)
  float_of_str : str -> option pyfloat;
  (** [round(x)] *)
  round_int : pyfloat -> round_result;
  (** [round(x, ndigits)] for [ndigits >= 0] *)
  round_ndigits : pyfloat -> nat -> pyfloat
}.

(** Exceptions that leave [build_database], and results of code that may
    raise one. *)
Inductive exn := OverflowError.

Inductive result (A : Type) :=
  | Ok (a : A)
  | Raise (e : exn).
Arguments Ok {A} a.
Arguments Raise {A} e.

#[export] Instance result_ret : MRet result := fun A a => Ok a.
#[export] Instance result_bind : MBind result :=
  fun A B f m => match m with Ok a => f a | Raise e => Raise e end.

(** A row of [csv.DictReader]: column name to field, the field being [None]
    where the line is shorter than the header. *)
Abbreviation Row := (gmap string (option (list N))).

(** [row.get(key, '')] *)
Definition row_get (row : Row) (key : string) : option str :=
  match row !! key with
  | Some v => v
  | None => Some []
  end.

(** [v or ''] on a field. *)
Definition or_empty (v : option str) : str :=
  match v with
  | Some s => s
  | None => []
  end.

(** [db[name] = value] for the entry of a row, if it has one. *)
Definition store_entry {V : Type} (db : gmap (list N) V)
  (entry : option (list N * V)) : gmap (list N) V :=
  match entry with
  | Some (name, value) => <[name := value]> db
  | None => db
  end.

(** The exit of the loop body a row takes: the four [continue] statements
    and the end of the body. *)
Inductive Exit :=
  | SkippedShortName
  | SkippedNotIngredient
  | UnclassifiedNoMatch
  | UnclassifiedUnknown
  | Classified.

#[global] Instance Exit_eq_dec : EqDecision Exit.
Proof. solve_decision. Defined.

Section Engine.
Context `{PyBuiltins}.

(** *** Ingredient filter *)

(** The number of leading characters of [s] in the class [\d]. *)
Fixpoint digit_prefix (s : str) : nat :=
  match s with
  | c :: s' => if re_digit c then S (digit_prefix s') else O
  | [] => O
  end.

(** [re.search(r'\d{n,}', s)] finds a match: at some offset at least [n]
    characters of the class follow. *)
Fixpoint re_search_digits (n : nat) (s : str) : bool :=
  (n <=? digit_prefix s)%nat ||
  match s with
  | [] => false
  | _ :: s' => re_search_digits n s'
  end.

Definition is_culinary_ingredient (name off_cat tags : str) : bool :=
  if (60 <? length name)%nat then false
  else if re_search_digits 5 name then false
  else if existsb (fun w => str_in w name) skip_words then false
  else true.

(** *** Metadata of a classified row *)

Inductive MetaVal :=
  | MInt (n : Z)
  | MBool (b : bool)
  | MStr (s : str)
  | MFloat (x : pyfloat).

Record State := {
  category_db : gmap (list N) Z;
  meta_db : option (gmap (list N) (gmap string MetaVal));
  skipped : N;
  classified : N;
  unclassified : N
}.

(** The dietary labels: [vegan], else [vegetarian]. *)
Definition store_labels (row : Row) (meta : gmap string MetaVal)
  : gmap string MetaVal :=
  let labels := str_lower (or_empty (row_get row "labels_en")) in
  if str_in (u "vegan") labels then <["vegan" := MBool true]> meta
  else if str_in (u "vegetarian") labels then <["vegetarian" := MBool true]> meta
  else meta.

Definition store_allergens (row : Row) (meta : gmap string MetaVal)
  : gmap string MetaVal :=
  let allergens := str_strip (or_empty (row_get row "allergens_en")) in
  match allergens with
  | [] => meta
  | _ :: _ => <["allergens" := MStr allergens]> meta
  end.

(** [meta['kcal'] = round(float(kcal))] under [except ValueError: pass]:
    the [ValueError] of [float] and of [round] is absorbed, the
    [OverflowError] of [round] is not. *)
Definition store_kcal (row : Row) (meta : gmap string MetaVal)
  : result (gmap string MetaVal) :=
  match row_get row "energy-kcal_100g" with
  | Some (c :: s) =>
      match float_of_str (c :: s) with
      | None => Ok meta
      | Some x =>
          match round_int x with
          | RoundInt n => Ok (<["kcal" := MInt n]> meta)
          | RoundValueError => Ok meta
          | RoundOverflowError => Raise OverflowError
          end
      end
  | _ => Ok meta
  end.

(** The energy field reads as a float on which [round] raises
    [OverflowError]. *)
Definition kcal_overflows (row : Row) : Prop :=
  exists c s x,
    row_get row "energy-kcal_100g" = Some (c :: s) /\
    float_of_str (c :: s) = Some x /\
    round_int x = RoundOverflowError.

(** [meta[key] = round(float(v), ndigits)] under [except ValueError: pass],
    the block the source repeats for protein, carbs, fat, fiber and
    sodium. *)
Definition store_rounded (row : Row) (column key : string) (ndigits : nat)
  (meta : gmap string MetaVal) : gmap string MetaVal :=
  match row_get row column with
  | Some (c :: s) =>
      match float_of_str (c :: s) with
      | None => meta
      | Some x => <[key := MFloat (round_ndigits x ndigits)]> meta
      end
  | _ => meta
  end.

(** The [if meta_db is not None] block up to [meta_db[name] = meta]. *)
Definition collect_meta (row : Row) (cat_index : Z)
  : result (gmap string MetaVal) :=
  let meta := {["cat" := MInt cat_index]} in
  let meta := store_labels row meta in
  let meta := store_allergens row meta in
  meta ← store_kcal row meta;
  let meta := store_rounded row "proteins_100g" "protein" 1 meta in
  let meta := store_rounded row "carbohydrates_100g" "carbs" 1 meta in
  let meta := store_rounded row "fat_100g" "fat" 1 meta in
  let meta := store_rounded row "fiber_100g" "fiber" 1 meta in
  let meta := store_rounded row "sodium_100g" "sodium" 3 meta in
  Ok meta.

(** The metadata mapping and the category mapping agree: same names, and
    each record carries the ordinal stored for its name. *)
Definition meta_agrees (st : State) : Prop :=
  match meta_db st with
  | None => True
  | Some mdb =>
      dom mdb = dom (category_db st) /\
      forall name meta, mdb !! name = Some meta ->
        (exists i, category_db st !! name = Some i /\
                   meta !! "cat"%string = Some (MInt i)) /\
        (meta !! "vegan"%string = None \/ meta !! "vegetarian"%string = None)
  end.

(** What a record of [meta_db] holds under a key: an ordinal of the
    registry other than unknown under [cat] and an integer under [kcal], the
    flag [True] under the two dietary keys, a text that is not empty under
    [allergens], floats under the five nutrient keys, and nothing else. *)
Definition meta_field (k : string) (v : MetaVal) : Prop :=
  match v with
  | MInt n => (k = "cat"%string /\ 0 <= n < 24 /\ n <> UNKNOWN) \/ k = "kcal"%string
  | MBool b => b = true /\ (k = "vegan"%string \/ k = "vegetarian"%string)
  | MStr s => k = "allergens"%string /\ s <> []
  | MFloat _ => In k ["protein"; "carbs"; "fat"; "fiber"; "sodium"]%string
  end.

(** *** The loop of [build_database] *)

Section Tables.
Variable rules : list (list str * str).
Variable off_map : list (str * option str).

(** [name = (row.get('product_name', '') or '').lower().strip()] *)
Definition row_name (row : Row) : str :=
  str_strip (str_lower (or_empty (row_get row "product_name"))).

Definition row_off_cat (row : Row) : str :=
  str_lower (or_empty (row_get row "main_category_en")).

Definition row_tags (row : Row) : str :=
  str_lower (or_empty (row_get row "categories_tags")).

(** The classification priority: the name rules, then the rule table of
    the category field on [off_cat], then the same table on [tags]. *)
Definition resolve_category (name off_cat tags : str) : option str :=
  let cat := first_name_rule rules name in
  let cat :=
    match cat with
    | None => classify_by_off_category_in off_map off_cat
    | Some _ => cat
    end in
  match cat with
  | None => classify_by_off_category_in off_map tags
  | Some _ => cat
  end.

Definition incr_skipped (st : State) : State :=
  {| category_db := category_db st; meta_db := meta_db st;
     skipped := skipped st + 1; classified := classified st;
     unclassified := unclassified st |}.

Definition incr_unclassified (st : State) : State :=
  {| category_db := category_db st; meta_db := meta_db st;
     skipped := skipped st; classified := classified st;
     unclassified := unclassified st + 1 |}.

(** [category_db[name] = cat_index; classified += 1] *)
Definition store_category (name : str) (cat_index : Z) (st : State) : State :=
  {| category_db := <[name := cat_index]> (category_db st);
     meta_db := meta_db st;
     skipped := skipped st; classified := classified st + 1;
     unclassified := unclassified st |}.

(** [meta_db[name] = meta] *)
Definition store_meta (name : str) (meta : gmap string MetaVal)
  (mdb : gmap (list N) (gmap string MetaVal)) (st : State) : State :=
  {| category_db := category_db st;
     meta_db := Some (<[name := meta]> mdb);
     skipped := skipped st; classified := classified st;
     unclassified := unclassified st |}.

(** One iteration of [for i, row in enumerate(reader)], the progress line
    left out. The result names the exit the row took. *)
Definition loop_body (st : State) (row : Row) : result (Exit * State) :=
  let name := row_name row in
  if (length name <? 2)%nat then Ok (SkippedShortName, incr_skipped st)
  else
    let off_cat := row_off_cat row in
    let tags := row_tags row in
    if negb (is_culinary_ingredient name off_cat tags)
    then Ok (SkippedNotIngredient, incr_skipped st)
    else
      match resolve_category name off_cat tags with
      | None => Ok (UnclassifiedNoMatch, incr_unclassified st)
      | Some cat =>
          let cat_index := CAT_get cat UNKNOWN in
          if cat_index =? UNKNOWN
          then Ok (UnclassifiedUnknown, incr_unclassified st)
          else
            let st := store_category name cat_index st in
            match meta_db st with
            | None => Ok (Classified, st)
            | Some mdb =>
                meta ← collect_meta row cat_index;
                Ok (Classified, store_meta name meta mdb st)
            end
      end.

Fixpoint run_rows (st : State) (rows : list Row) : result State :=
  match rows with
  | [] => Ok st
  | row :: rest =>
      '(_, st') ← loop_body st row;
      run_rows st' rest
  end.

(** The state [build_database] starts from. *)
Definition initial_state (generate_meta : bool) : State :=
  {| category_db := ∅;
     meta_db := if generate_meta then Some ∅ else None;
     skipped := 0; classified := 0; unclassified := 0 |}.

(** [build_database] on the rows of the reader, up to the end of the loop;
    [category_db] and [meta_db] of the final state are what the two output
    files serialise. *)
Definition build_database_in (rows : list Row) (generate_meta : bool)
  : result State :=
  run_rows (initial_state generate_meta) rows.

(** A row reaches [category_db[name] = cat_index] with the ordinal [i]: it
    passes the two filters and resolves to a category whose ordinal is [i],
    not the unknown one. *)
Definition row_classifies (row : Row) (i : Z) : Prop :=
  (2 <= length (row_name row))%nat /\
  is_culinary_ingredient (row_name row) (row_off_cat row) (row_tags row) = true /\
  exists cat,
    resolve_category (row_name row) (row_off_cat row) (row_tags row) = Some cat /\
    CAT_get cat UNKNOWN = i /\ i <> UNKNOWN.

(** A row that cannot store under [name]: it has another name, or it does
    not classify. *)
Definition leaves_entry (name : str) (row : Row) : Prop :=
  row_name row <> name \/ forall i, ~ row_classifies row i.

(** The entry a row stores in [category_db]: its name and ordinal when it
    reaches [category_db[name] = cat_index], nothing when it takes one of
    the four [continue] exits. *)
Definition row_entry (row : Row) : option (str * Z) :=
  let name := row_name row in
  if (length name <? 2)%nat then None
  else if negb (is_culinary_ingredient name (row_off_cat row) (row_tags row))
  then None
  else
    match resolve_category name (row_off_cat row) (row_tags row) with
    | None => None
    | Some cat =>
        let cat_index := CAT_get cat UNKNOWN in
        if cat_index =? UNKNOWN then None else Some (name, cat_index)
    end.

(** The record a row stores in [meta_db] when metadata is collected. *)
Definition row_meta_entry (row : Row) : option (str * gmap string MetaVal) :=
  match row_entry row with
  | Some (name, cat_index) =>
      match collect_meta row cat_index with
      | Ok meta => Some (name, meta)
      | Raise _ => None
      end
  | None => None
  end.

End Tables.

(** A category mapping none of whose values is the unknown ordinal. *)
Definition no_unknown (db : gmap (list N) Z) : Prop :=
  forall name i, db !! name = Some i -> i <> UNKNOWN.

(** The two mappings of a run, the content of the files it writes. *)
Definition outputs (r : result State)
  : result (gmap (list N) Z * option (gmap (list N) (gmap string MetaVal))) :=
  match r with
  | Ok st => Ok (category_db st, meta_db st)
  | Raise e => Raise e
  end.

Definition build_database (rows : list Row) (generate_meta : bool)
  : result State :=
  build_database_in KEYWORD_RULES OFF_CATEGORY_MAP rows generate_meta.

End Engine.

(** ** The builtins of CPython on ASCII text

    What CPython 3 computes for the builtins above when the text is ASCII:
    the instance the concrete runs below are evaluated in. Floats are IEEE
    binary64 values, [float] and [round] round correctly (to nearest, ties
    to even). *)

Definition ascii_lower (s : str) : str :=
  map (fun c => if (65 <=? c)%N && (c <=? 90)%N then (c + 32)%N else c) s.

(** White space of [str.strip]: tab to carriage return, the four
    separators 28 to 31 and the space. *)
Definition strip_space (c : N) : bool :=
  ((9 <=? c)%N && (c <=? 13)%N) || ((28 <=? c)%N && (c <=? 32)%N).

Fixpoint lstrip_with (space : N -> bool) (s : str) : str :=
  match s with
  | c :: s' => if space c then lstrip_with space s' else s
  | [] => []
  end.

Definition strip_with (space : N -> bool) (s : str) : str :=
  rev (lstrip_with space (rev (lstrip_with space s))).

Definition ascii_strip (s : str) : str := strip_with strip_space s.

Definition ascii_digit (c : N) : bool := (48 <=? c)%N && (c <=? 57)%N.

(** White space [float] skips around an ASCII literal. *)
Definition float_space (c : N) : bool :=
  ((9 <=? c)%N && (c <=? 13)%N) || (c =? 32)%N.

(** Underscores of a numeric literal: each one between two digits; they are
    removed before the number is read. [prev] is the previous character. *)
Fixpoint drop_underscores (prev : N) (s : str) : option str :=
  match s with
  | [] => if (prev =? 95)%N then None else Some []
  | c :: s' =>
      if (c =? 95)%N then
        if ascii_digit prev then drop_underscores c s' else None
      else if (prev =? 95)%N && negb (ascii_digit c) then None
      else option_map (cons c) (drop_underscores c s')
  end.

(** The leading digits of [s] and what follows them. *)
Fixpoint span_digits (s : str) : str * str :=
  match s with
  | c :: s' =>
      if ascii_digit c then let '(d, r) := span_digits s' in (c :: d, r)
      else ([], s)
  | [] => ([], [])
  end.

(** The number a run of decimal digits denotes. *)
Definition digits_value (d : str) : Z :=
  fold_left (fun acc c => 10 * acc + (Z.of_N c - 48)) d 0.

Definition split_sign (s : str) : bool * str :=
  match s with
  | 43%N :: r => (false, r)
  | 45%N :: r => (true, r)
  | _ => (false, s)
  end.

(** The binary64 value nearest to [m * 10 ^ e], for [0 <= m]. *)
Definition binary64_of_decimal (neg : bool) (m e : Z) : spec_float :=
  if m =? 0 then S754_zero neg
  else if 0 <=? e then binary_round 53 1024 neg (Z.to_pos (m * 10 ^ e)) 0
  else
    let '(q, e', l) := SFdiv_core_binary 53 1024 m 0 (10 ^ (- e)) 0 in
    binary_round_aux 53 1024 neg q e' l.

(** An exponent part: empty, or [e] or [E], an optional sign and at least
    one digit, up to the end of the text. *)
Definition read_exponent (s : str) : option Z :=
  match s with
  | [] => Some 0
  | c :: r =>
      if (c =? 101)%N || (c =? 69)%N then
        let '(neg, r) := split_sign r in
        match span_digits r with
        | ((_ :: _) as d, []) =>
            Some (if neg then - digits_value d else digits_value d)
        | _ => None
        end
      else None
  end.

(** A decimal literal: digits, an optional point and digits, at least one
    digit in all, and an exponent part. *)
Definition read_decimal (neg : bool) (s : str) : option spec_float :=
  let '(int_part, r) := span_digits s in
  let '(frac_part, r) :=
    match r with
    | 46%N :: r' => span_digits r'
    | _ => ([], r)
    end in
  match int_part ++ frac_part with
  | [] => None
  | (_ :: _) as d =>
      match read_exponent r with
      | Some e =>
          Some (binary64_of_decimal neg (digits_value d)
                  (e - Z.of_nat (length frac_part)))
      | None => None
      end
  end.

(** [float(s)] on ASCII text. *)
Definition ascii_float (s : str) : option spec_float :=
  match drop_underscores 0%N (strip_with float_space s) with
  | None => None
  | Some t =>
      let '(neg, body) := split_sign t in
      let word := ascii_lower body in
      if bool_decide (word = u "inf") || bool_decide (word = u "infinity")
      then Some (S754_infinity neg)
      else if bool_decide (word = u "nan") then Some S754_nan
      else read_decimal neg body
  end.

(** [n / d] rounded to the nearest integer, ties to even, for [0 < d]. *)
Definition div_half_even (n d : Z) : Z :=
  let q := n / d in
  match 2 * (n mod d) ?= d with
  | Lt => q
  | Gt => q + 1
  | Eq => if Z.even q then q else q + 1
  end.

(** [m * 2 ^ e * 10 ^ k] rounded to the nearest integer, ties to even. *)
Definition scaled_half_even (m : positive) (e : Z) (k : nat) : Z :=
  if 0 <=? e then Zpos m * 2 ^ e * 10 ^ Z.of_nat k
  else div_half_even (Zpos m * 10 ^ Z.of_nat k) (2 ^ (- e)).

(** [round(x)]: the nearest integer, ties to even; [ValueError] on a NaN
    and [OverflowError] on an infinity. *)
Definition binary64_round_int (x : spec_float) : round_result :=
  match x with
  | S754_nan => RoundValueError
  | S754_infinity _ => RoundOverflowError
  | S754_zero _ => RoundInt 0
  | S754_finite neg m e =>
      let a := scaled_half_even m e 0 in
      RoundInt (if neg then - a else a)
  end.

(** [round(x, ndigits)] for [0 <= ndigits]: the exact value of [x] rounded
    to [ndigits] decimals, ties to even, and read back as a float; zeros,
    infinities and NaN are returned as they are, and so is [x] past 323
    digits. *)
Definition binary64_round_ndigits (x : spec_float) (ndigits : nat)
  : spec_float :=
  match x with
  | S754_finite neg m e =>
      if (323 <? ndigits)%nat then x
      else binary64_of_decimal neg (scaled_half_even m e ndigits)
             (- Z.of_nat ndigits)
  | _ => x
  end.

#[global] Instance ascii_builtins : PyBuiltins := {
  str_lower := ascii_lower;
  str_strip := ascii_strip;
  re_digit := ascii_digit;
  pyfloat := spec_float;
  float_of_str := ascii_float;
  round_int := binary64_round_int;
  round_ndigits := binary64_round_ndigits
}.

(** The five nutrient blocks of the metadata: column, key and digits kept. *)
Definition nutrient_columns : list (string * string * nat) :=
  [ ("proteins_100g", "protein", 1%nat); ("carbohydrates_100g", "carbs", 1%nat);
    ("fat_100g", "fat", 1%nat); ("fiber_100g", "fiber", 1%nat);
    ("sodium_100g", "sodium", 3%nat) ]%string.

(** The record [collect_meta] builds, empty when it raises. *)
Definition built_meta `{PyBuiltins} (r : result (gmap string MetaVal))
  : gmap string MetaVal :=
  match r with
  | Ok meta => meta
  | Raise _ => ∅
  end.


(** A row whose protein and energy fields read as NaN. *)
Definition nan_row : Row :=
  {["product_name" := Some (u "Butter");
    "proteins_100g" := Some (u " NaN");
    "energy-kcal_100g" := Some (u "nan")]}.

(** A small input for the concrete runs: milk with labels and an energy
    value, an empty name, the name zzz twice (a cheese by its category
    field, then a milk by its tags), a name no rule knows and a pizza. *)
Definition sample_rows : list Row :=
  [ {["product_name" := Some (u "Whole Milk");
      "main_category_en" := Some (u "Dairies");
      "labels_en" := Some (u "Vegetarian, Vegan");
      "energy-kcal_100g" := Some (u "64.5")]};
    {["product_name" := Some (u "")]};
    {["product_name" := Some (u "Zzz"); "main_category_en" := Some (u "Cheeses")]};
    {["product_name" := Some (u "zzz"); "categories_tags" := Some (u "en:milks")]};
    {["product_name" := Some (u "Qwerty")]};
    {["product_name" := Some (u "Pizza Margherita")]} ].

(** The state of a finished run. *)
Definition final_state `{PyBuiltins} (r : result State) : State :=
  match r with
  | Ok st => st
  | Raise _ => initial_state false
  end.

(** * Properties of the engine *)

(** ** Text containment *)

Lemma startswith_spec (s p : str) :
  startswith s p = true <-> exists b, s = p ++ b.
Proof.
  revert s; induction p as [|c p IH]; intros s; simpl.
  - split; [intros _; exists s; reflexivity | intros _; destruct s; reflexivity].
  - destruct s as [|d s].
    + split; [discriminate | intros [b Hb]; discriminate].
    + simpl. rewrite andb_true_iff, N.eqb_eq, IH. split.
      * intros [-> [b ->]]. exists b. reflexivity.
      * intros [b Hb]. injection Hb as -> ->. split; [reflexivity | exists b; reflexivity].
Qed.

Lemma str_in_nil (sub : str) : str_in sub [] = startswith [] sub.
Proof. unfold str_in. apply orb_false_r. Qed.

Lemma str_in_cons (sub : str) (c : N) (s : str) :
  str_in sub (c :: s) = startswith (c :: s) sub || str_in sub s.
Proof. reflexivity. Qed.

(** [sub in s] holds exactly when [s] splits around a copy of [sub]. *)
Lemma str_in_spec (sub s : str) :
  str_in sub s = true <-> exists a b, s = a ++ sub ++ b.
Proof.
  induction s as [|c s IH].
  - rewrite str_in_nil, startswith_spec. split.
    + intros [b Hb]. exists [], b. exact Hb.
    + intros (a & b & Hab). destruct a as [|x a]; [exists b; exact Hab | discriminate].
  - rewrite str_in_cons, orb_true_iff, startswith_spec, IH. split.
    + intros [[b Hb] | (a & b & ->)].
      * exists [], b. exact Hb.
      * exists (c :: a), b. reflexivity.
    + intros (a & b & Hab). destruct a as [|x a]; simpl in Hab.
      * left. exists b. exact Hab.
      * right. injection Hab as -> ->. exists a, b. reflexivity.
Qed.

Lemma str_in_trans (a b s : str) :
  str_in a b = true -> str_in b s = true -> str_in a s = true.
Proof.
  rewrite !str_in_spec. intros (x & y & ->) (x' & y' & ->).
  exists (x' ++ x), (y ++ y'). rewrite <- !app_assoc. reflexivity.
Qed.

(** A keyword that occurs in a text puts its first character there. *)
Lemma str_in_first_char (c : N) (kw s : str) :
  str_in (c :: kw) s = true -> In c s.
Proof.
  rewrite str_in_spec. intros (a & b & ->).
  apply in_or_app. right. left. reflexivity.
Qed.

(** ** The scan of the name rules *)

Lemma first_name_rule_app (pre post : list (list str * str)) (name : str) :
  first_name_rule (pre ++ post) name =
  match first_name_rule pre name with
  | Some cat => Some cat
  | None => first_name_rule post name
  end.
Proof.
  induction pre as [|[kws cat] pre IH]; simpl; [reflexivity|].
  destruct (forallb _ kws); [reflexivity | exact IH].
Qed.

Lemma first_name_rule_none (rules : list (list str * str)) (name : str) :
  first_name_rule rules name = None <->
  Forall (fun r => rule_matches name r = false) rules.
Proof.
  induction rules as [|[kws cat] rules IH]; simpl.
  - split; [constructor | reflexivity].
  - rewrite Forall_cons. unfold rule_matches at 1. simpl.
    destruct (forallb _ kws) eqn:E.
    + split; [discriminate | intros [HF _]; discriminate].
    + rewrite IH. split; [intros HF; split; [reflexivity | exact HF]
                         | intros [_ HF]; exact HF].
Qed.

(** The category returned is the target of a rule of the table that
    matches. *)
Lemma first_name_rule_some (rules : list (list str * str)) (name cat : str) :
  first_name_rule rules name = Some cat ->
  exists kws, In (kws, cat) rules /\ rule_matches name (kws, cat) = true.
Proof.
  induction rules as [|[kws c] rules IH]; simpl; [discriminate|].
  destruct (forallb _ kws) eqn:E.
  - intros [= ->]. exists kws. split; [left; reflexivity | exact E].
  - intros Hr. destruct (IH Hr) as (k & Hin & Hm).
    exists k. split; [right; exact Hin | exact Hm].
Qed.

(** A prefix of the table whose rules share one target answers with that
    target as soon as one of its rules matches. *)
Lemma first_name_rule_shared_target (pre : list (list str * str))
  (name cat : str) :
  Forall (fun r => snd r = cat) pre ->
  Exists (fun r => rule_matches name r = true) pre ->
  first_name_rule pre name = Some cat.
Proof.
  induction pre as [|[kws c] pre IH]; intros HF HE.
  - inversion HE.
  - apply Forall_cons in HF. destruct HF as [Hc HF]. simpl in Hc. subst c.
    apply Exists_cons in HE. simpl.
    destruct (forallb _ kws) eqn:E; [reflexivity|].
    apply IH; [exact HF|].
    destruct HE as [Hm | HE]; [|exact HE].
    unfold rule_matches in Hm. simpl in Hm. congruence.
Qed.

(** Every name that mentions olives is answered by the opening block of
    pantry rules: the rule for olive oil, further down, is never reached. *)
Lemma olive_names_are_pantry (name : str) :
  str_in (u "olive") name = true ->
  classify_by_name name = Some (u "pantry").
Proof.
  intros Holive. unfold classify_by_name.
  replace KEYWORD_RULES with (firstn 20 KEYWORD_RULES ++ skipn 20 KEYWORD_RULES)
    by apply firstn_skipn.
  rewrite first_name_rule_app.
  rewrite (first_name_rule_shared_target _ name (u "pantry")); [reflexivity| |].
  - vm_compute. repeat constructor.
  - apply Exists_exists. exists ([u "olive"], u "pantry"). split.
    + vm_compute. do 19 right. now left.
    + unfold rule_matches, fst, forallb. rewrite Holive. reflexivity.
Qed.

(** C1. The name matcher tests every keyword, single words included, by
    plain containment: on the name serum no rule before the rule for rum
    matches, and that rule, the 252nd, fires on the letters r-u-m inside
    the word and returns alcohol; drum is answered the same way. The claim
    that such a rule does not fire fails here. *)
Theorem classify_by_name_serum_is_alcohol :
  first_name_rule (firstn 251 KEYWORD_RULES) (u "serum") = None /\
  nth_error KEYWORD_RULES 251 = Some ([u "rum"], u "alcohol") /\
  classify_by_name (u "serum") = Some (u "alcohol") /\
  classify_by_name (u "drum") = Some (u "alcohol").
Proof.
  repeat split; vm_compute; reflexivity.
Qed.

(** C2. The rule for olive alone (target pantry, 20th of the table) stands
    before the rule for olive oil (target oil, 89th), so the name extra
    virgin olive oil is answered pantry, and not oil as the claim says. *)
Theorem classify_by_name_olive_oil_is_pantry :
  nth_error KEYWORD_RULES 19 = Some ([u "olive"], u "pantry") /\
  nth_error KEYWORD_RULES 88 = Some ([u "olive oil"], u "oil") /\
  classify_by_name (u "extra virgin olive oil") = Some (u "pantry") /\
  classify_by_name (u "olive oil") = Some (u "pantry").
Proof.
  repeat split; vm_compute; reflexivity.
Qed.

(** ** Rules whose keyword begins with a closing bracket *)

Lemma bracket_rule_no_match (name : str) (rule : list str * str) :
  ~ In 93%N name -> bracket_rule rule = true -> rule_matches name rule = false.
Proof.
  intros Hname Hb. unfold bracket_rule in Hb. unfold rule_matches.
  apply existsb_exists in Hb. destruct Hb as (kw & Hkw & Hbr).
  destruct (forallb _ (fst rule)) eqn:E; [|reflexivity].
  exfalso. apply Hname.
  assert (Hin : str_in kw name = true)
    by (rewrite forallb_forall in E; apply E; exact Hkw).
  destruct kw as [|c kw]; [discriminate|].
  simpl in Hbr. apply N.eqb_eq in Hbr. subst c.
  apply (str_in_first_char _ _ _ Hin).
Qed.

(** Rules that cannot match a name may be struck from the table. *)
Lemma first_name_rule_filter (keep : list str * str -> bool)
  (rules : list (list str * str)) (name : str) :
  (forall r, In r rules -> keep r = false -> rule_matches name r = false) ->
  first_name_rule rules name = first_name_rule (List.filter keep rules) name.
Proof.
  induction rules as [|[kws cat] rules IH]; intros Hdead; [reflexivity|].
  assert (IH' : first_name_rule rules name = first_name_rule (List.filter keep rules) name)
    by (apply IH; intros r Hr; apply Hdead; right; exact Hr).
  change (List.filter keep ((kws, cat) :: rules))
    with (if keep (kws, cat) then (kws, cat) :: List.filter keep rules
          else List.filter keep rules).
  destruct (keep (kws, cat)) eqn:K; simpl.
  - rewrite IH'. reflexivity.
  - assert (Hm : rule_matches name (kws, cat) = false)
      by (apply Hdead; [left; reflexivity | exact K]).
    unfold rule_matches in Hm. simpl in Hm. rewrite Hm. exact IH'.
Qed.

(** C10. Twelve name rules have a keyword that begins with a closing
    bracket, the three broth rules among them. On a name with no closing
    bracket none of them matches, so the name is classified as if they were
    struck from the table; chicken broth is passed over by everything before
    the single-word rule for broth, the 288th, and gets its target beverage
    and not pantry. *)
Theorem bracket_rules_never_match :
  map fst (List.filter bracket_rule KEYWORD_RULES) =
    [ [u "]chicken broth"]; [u "]beef broth"]; [u "]vegetable broth"];
      [u "]kimchi"]; [u "]steak sauce"]; [u "]oyster mushroom sauce"];
      [u "]starch water"]; [u "]stick rice flour"]; [u "]wakame"];
      [u "]shortening"]; [u "]cornstarch"]; [u "]tsaoko"] ] /\
  In ([u "]chicken broth"], u "pantry") KEYWORD_RULES /\
  (forall name : str, ~ In 93%N name ->
     (forall rule, In rule KEYWORD_RULES -> bracket_rule rule = true ->
        rule_matches name rule = false) /\
     classify_by_name name =
       first_name_rule (List.filter (fun r => negb (bracket_rule r)) KEYWORD_RULES) name) /\
  first_name_rule (firstn 287 KEYWORD_RULES) (u "chicken broth") = None /\
  nth_error KEYWORD_RULES 287 = Some ([u "broth"], u "beverage") /\
  classify_by_name (u "chicken broth") = Some (u "beverage").
Proof.
  split; [vm_compute; reflexivity|].
  split; [vm_compute; do 4 right; now left|].
  split; [|repeat split; vm_compute; reflexivity].
  intros name Hname. split.
  - intros rule _ Hb. apply bracket_rule_no_match; assumption.
  - unfold classify_by_name. apply first_name_rule_filter.
    intros r _ Hk. apply bracket_rule_no_match; [exact Hname|].
    destruct (bracket_rule r); [reflexivity | discriminate].
Qed.

Lemma bracket_rules_never_match_witness :
  rule_matches (u "chicken broth") ([u "]chicken broth"], u "pantry") = false.
Proof.
  assert (Hname : ~ In 93%N (u "chicken broth")).
  { intros H. vm_compute in H. repeat (destruct H as [H|H]; [discriminate|]). exact H. }
  destruct bracket_rules_never_match as (_ & Hin & Hall & _).
  destruct (Hall (u "chicken broth") Hname) as [Hdead _].
  apply Hdead; [exact Hin | reflexivity].
Defined.

(** ** The category registry and the targets of the rules *)

(** Every registered category is stored in [CAT] under its position in
    [CATEGORIES]. *)
Lemma CAT_lookup_position (i : nat) (cat : str) :
  nth_error CATEGORIES i = Some cat -> CAT !! cat = Some (Z.of_nat i).
Proof.
  do 24 (destruct i as [|i]; [intros [= <-]; vm_compute; reflexivity|]).
  destruct i; discriminate.
Qed.

Lemma UNKNOWN_eq : UNKNOWN = 22.
Proof. vm_compute. reflexivity. Qed.

(** A registered category other than unknown is looked up to its own
    position, which is not the unknown ordinal. *)
Lemma CAT_get_registered (cat : str) :
  In cat CATEGORIES -> cat <> u "unknown" ->
  exists i, nth_error CATEGORIES i = Some cat /\
            CAT_get cat UNKNOWN = Z.of_nat i /\ Z.of_nat i <> UNKNOWN.
Proof.
  intros Hin Hne. apply In_nth_error in Hin. destruct Hin as [i Hi].
  exists i. split; [exact Hi|]. unfold CAT_get.
  rewrite (CAT_lookup_position i cat Hi). split; [reflexivity|].
  rewrite UNKNOWN_eq. intros H22.
  assert (i = 22%nat) by lia. subst i.
  apply Hne. change (nth_error CATEGORIES 22) with (Some (u "unknown")) in Hi.
  congruence.
Qed.

Lemma first_off_rule_some (table : list (str * option str))
  (text cat : str) :
  first_off_rule table text = Some cat ->
  exists kw, In (kw, Some cat) table /\ str_in kw text = true.
Proof.
  induction table as [|[kw tgt] table IH]; simpl; [discriminate|].
  destruct (str_in kw text) eqn:E.
  - intros ->. exists kw. split; [left; reflexivity | exact E].
  - intros Hr. destruct (IH Hr) as (k & Hin & Hk).
    exists k. split; [right; exact Hin | exact Hk].
Qed.

Lemma classify_by_off_category_in_some (table : list (str * option str))
  (text cat : str) :
  classify_by_off_category_in table text = Some cat ->
  exists kw, In (kw, Some cat) table /\ str_in kw text = true.
Proof.
  destruct text as [|c text]; [discriminate|].
  apply first_off_rule_some.
Qed.

(** The category a row resolves to is a target of one of the two tables. *)
Lemma resolve_category_some (rules : list (list str * str))
  (off_map : list (str * option str)) (name off_cat tags cat : str) :
  resolve_category rules off_map name off_cat tags = Some cat ->
  (exists kws, In (kws, cat) rules) \/ (exists kw, In (kw, Some cat) off_map).
Proof.
  unfold resolve_category.
  destruct (first_name_rule rules name) as [c|] eqn:E1.
  - intros [= ->]. left. apply first_name_rule_some in E1.
    destruct E1 as (kws & Hin & _). exists kws. exact Hin.
  - destruct (classify_by_off_category_in off_map off_cat) as [c|] eqn:E2.
    + intros [= ->]. right. apply classify_by_off_category_in_some in E2.
      destruct E2 as (kw & Hin & _). exists kw. exact Hin.
    + intros E3. right. apply classify_by_off_category_in_some in E3.
      destruct E3 as (kw & Hin & _). exists kw. exact Hin.
Qed.

(** The exit through the unknown ordinal is taken only by a row that
    resolves to a category whose lookup is the unknown ordinal. *)
Lemma loop_body_unknown_exit `{PyBuiltins} (rules : list (list str * str))
  (off_map : list (str * option str)) (st st' : State) (row : Row) :
  loop_body rules off_map st row = Ok (UnclassifiedUnknown, st') ->
  exists cat,
    resolve_category rules off_map (row_name row) (row_off_cat row) (row_tags row)
      = Some cat /\
    CAT_get cat UNKNOWN = UNKNOWN.
Proof.
  unfold loop_body.
  destruct (length (row_name row) <? 2)%nat; [discriminate|].
  destruct (negb (is_culinary_ingredient _ _ _)); [discriminate|].
  destruct (resolve_category _ _ _ _ _) as [cat|]; [|discriminate].
  destruct (CAT_get cat UNKNOWN =? UNKNOWN) eqn:E.
  - intros _. exists cat. split; [reflexivity | apply Z.eqb_eq; exact E].
  - simpl. destruct (meta_db st); [|discriminate].
    destruct (collect_meta row _); discriminate.
Qed.

(** C9. Every target of the name rules and every target of the
    category-field rules that is not [None] is a registered category other
    than unknown. So the category a row resolves to is looked up to its own
    position in [CATEGORIES], never to the unknown ordinal, and no row
    leaves the loop body of [build_database] through the unknown exit. *)
Theorem rule_targets_registered :
  (forall kws cat, In (kws, cat) KEYWORD_RULES ->
     In cat CATEGORIES /\ cat <> u "unknown") /\
  (forall kw cat, In (kw, Some cat) OFF_CATEGORY_MAP ->
     In cat CATEGORIES /\ cat <> u "unknown") /\
  (forall name off_cat tags cat,
     resolve_category KEYWORD_RULES OFF_CATEGORY_MAP name off_cat tags = Some cat ->
     exists i, nth_error CATEGORIES i = Some cat /\
               CAT_get cat UNKNOWN = Z.of_nat i /\ Z.of_nat i <> UNKNOWN) /\
  (forall (B : PyBuiltins) (st : State) (row : Row) e st',
     loop_body KEYWORD_RULES OFF_CATEGORY_MAP st row = Ok (e, st') ->
     e <> UnclassifiedUnknown).
Proof.
  assert (Hrules : forall kws cat, In (kws, cat) KEYWORD_RULES ->
            In cat CATEGORIES /\ cat <> u "unknown").
  { assert (Hall : Forall (fun r => snd r ∈ CATEGORIES /\ snd r <> u "unknown")
                     KEYWORD_RULES)
      by (apply (bool_decide_unpack _); vm_compute; exact I).
    intros kws cat Hin. rewrite Forall_forall in Hall.
    apply list_elem_of_In in Hin. destruct (Hall _ Hin) as [H1 H2].
    split; [apply list_elem_of_In; exact H1 | exact H2]. }
  assert (Hoff : forall kw cat, In (kw, Some cat) OFF_CATEGORY_MAP ->
            In cat CATEGORIES /\ cat <> u "unknown").
  { assert (Hall : Forall (fun r => match snd r with
                                    | Some cat => cat ∈ CATEGORIES /\ cat <> u "unknown"
                                    | None => True
                                    end) OFF_CATEGORY_MAP).
    { apply Forall_forall. intros [kw tgt] Hin.
      assert (Hb : forallb (fun r => match snd r with
                            | Some cat => bool_decide (cat ∈ CATEGORIES /\ cat <> u "unknown")
                            | None => true
                            end) OFF_CATEGORY_MAP = true)
        by (vm_compute; reflexivity).
      rewrite forallb_forall in Hb. apply list_elem_of_In in Hin.
      specialize (Hb _ Hin). simpl in *. destruct tgt; [|exact I].
      apply bool_decide_eq_true in Hb. exact Hb. }
    intros kw cat Hin. rewrite Forall_forall in Hall.
    apply list_elem_of_In in Hin. destruct (Hall _ Hin) as [H1 H2].
    split; [apply list_elem_of_In; exact H1 | exact H2]. }
  assert (Hres : forall name off_cat tags cat,
     resolve_category KEYWORD_RULES OFF_CATEGORY_MAP name off_cat tags = Some cat ->
     exists i, nth_error CATEGORIES i = Some cat /\
               CAT_get cat UNKNOWN = Z.of_nat i /\ Z.of_nat i <> UNKNOWN).
  { intros name off_cat tags cat Hr.
    apply resolve_category_some in Hr.
    destruct Hr as [[kws Hin] | [kw Hin]].
    - destruct (Hrules _ _ Hin). apply CAT_get_registered; assumption.
    - destruct (Hoff _ _ Hin). apply CAT_get_registered; assumption. }
  repeat split; try (eapply Hrules; eassumption); try (eapply Hoff; eassumption).
  - exact Hres.
  - intros B st row e st' Hbody ->.
    apply loop_body_unknown_exit in Hbody.
    destruct Hbody as (cat & Hr & Hunk).
    destruct (Hres _ _ _ _ Hr) as (i & _ & Hget & Hne). congruence.
Qed.

(** ** The ingredient filter *)

Section FilterFacts.
Context `{PyBuiltins}.

Lemma digit_prefix_run (run rest : str) :
  Forall (fun c => re_digit c = true) run ->
  (length run <= digit_prefix (run ++ rest))%nat.
Proof.
  induction run as [|c run IH]; intros HF; simpl; [lia|].
  apply Forall_cons in HF. destruct HF as [Hc HF].
  rewrite Hc. specialize (IH HF). lia.
Qed.

(** The leading digits of a text form a run of that length. *)
Lemma digit_prefix_split (s : str) :
  exists run rest, s = run ++ rest /\ length run = digit_prefix s /\
                   Forall (fun c => re_digit c = true) run.
Proof.
  induction s as [|c s (run & rest & Hs & Hlen & HF)]; simpl.
  - exists [], []. repeat split. constructor.
  - destruct (re_digit c) eqn:Hc.
    + exists (c :: run), rest.
      split; [simpl; f_equal; exact Hs|].
      split; [simpl; f_equal; exact Hlen | constructor; assumption].
    + exists [], (c :: s). repeat split. constructor.
Qed.

(** The search for [\d{n,}] succeeds exactly on the texts that hold a run
    of at least [n] characters of the class. *)
Lemma re_search_digits_spec (n : nat) (s : str) :
  re_search_digits n s = true <->
  exists a run b, s = a ++ run ++ b /\ (n <= length run)%nat /\
                  Forall (fun c => re_digit c = true) run.
Proof.
  induction s as [|c s IH].
  - simpl. rewrite orb_false_r, Nat.leb_le. split.
    + intros Hn. exists [], [], []. repeat split; [lia | constructor].
    + intros (a & run & b & Hs & Hn & _).
      destruct a; [|discriminate]. destruct run; [simpl in Hn; lia | discriminate].
  - change (re_search_digits n (c :: s))
      with ((n <=? digit_prefix (c :: s))%nat || re_search_digits n s).
    rewrite orb_true_iff, Nat.leb_le, IH. split.
    + intros [Hn | (a & run & b & -> & Hn & HF)].
      * destruct (digit_prefix_split (c :: s)) as (run & rest & Hs & Hlen & HF).
        exists [], run, rest. repeat split; [exact Hs | lia | exact HF].
      * exists (c :: a), run, b. repeat split; assumption.
    + intros (a & run & b & Hs & Hn & HF). destruct a as [|x a].
      * left. simpl in Hs. rewrite Hs.
        pose proof (digit_prefix_run run b HF). lia.
      * right. simpl in Hs. injection Hs as -> ->.
        exists a, run, b. repeat split; assumption.
Qed.

(** C4. The ingredient filter answers false exactly when the name is
    longer than 60 characters, or holds a run of five or more characters of
    the digit class, or contains a word of the denylist; otherwise it
    answers true. The answer is a function of the name alone: the
    category and tag arguments play no part. *)
Theorem is_culinary_ingredient_spec (name off_cat tags : str) :
  (is_culinary_ingredient name off_cat tags = false <->
     (60 < length name)%nat \/
     (exists a run b, name = a ++ run ++ b /\ (5 <= length run)%nat /\
                      Forall (fun c => re_digit c = true) run) \/
     (exists w a b, In w skip_words /\ name = a ++ w ++ b)) /\
  (is_culinary_ingredient name off_cat tags = true <->
     (length name <= 60)%nat /\
     ~ (exists a run b, name = a ++ run ++ b /\ (5 <= length run)%nat /\
                        Forall (fun c => re_digit c = true) run) /\
     ~ (exists w a b, In w skip_words /\ name = a ++ w ++ b)) /\
  (forall off_cat' tags',
     is_culinary_ingredient name off_cat' tags' =
     is_culinary_ingredient name off_cat tags).
Proof.
  assert (Hdeny : existsb (fun w => str_in w name) skip_words = true <->
                  exists w a b, In w skip_words /\ name = a ++ w ++ b).
  { rewrite existsb_exists. split.
    - intros (w & Hin & Hw). apply str_in_spec in Hw.
      destruct Hw as (a & b & Hab). exists w, a, b. split; assumption.
    - intros (w & a & b & Hin & Hab). exists w. split; [exact Hin|].
      apply str_in_spec. exists a, b. exact Hab. }
  pose proof (re_search_digits_spec 5 name) as Hrun.
  unfold is_culinary_ingredient.
  destruct (60 <? length name)%nat eqn:Elen;
    [apply Nat.ltb_lt in Elen | apply Nat.ltb_ge in Elen].
  { repeat split; try discriminate; auto; intros; lia. }
  destruct (re_search_digits 5 name) eqn:Erun.
  { assert (Hr : exists a run b, name = a ++ run ++ b /\ (5 <= length run)%nat /\
                 Forall (fun c => re_digit c = true) run) by (apply Hrun; reflexivity).
    repeat split; try discriminate; auto. intros (_ & Hno & _). contradiction. }
  destruct (existsb (fun w => str_in w name) skip_words) eqn:Edeny.
  { assert (Hd : exists w a b, In w skip_words /\ name = a ++ w ++ b)
      by (apply Hdeny; reflexivity).
    repeat split; try discriminate; auto. intros (_ & _ & Hno). contradiction. }
  assert (Hnorun : ~ (exists a run b, name = a ++ run ++ b /\ (5 <= length run)%nat /\
                      Forall (fun c => re_digit c = true) run))
    by (intros Hr; apply Hrun in Hr; discriminate).
  assert (Hnodeny : ~ (exists w a b, In w skip_words /\ name = a ++ w ++ b))
    by (intros Hd; apply Hdeny in Hd; discriminate).
  repeat split; try discriminate; auto.
  intros [Hl | [Hr | Hd]]; [lia | contradiction | contradiction].
Qed.

End FilterFacts.

(** ** The scan of the category-field rules *)

Lemma first_off_rule_first_match (pre post : list (str * option str))
  (kw : str) (tgt : option str) (text : str) :
  Forall (fun r => str_in (fst r) text = false) pre ->
  str_in kw text = true ->
  first_off_rule (pre ++ (kw, tgt) :: post) text = tgt.
Proof.
  induction pre as [|[k t] pre IH]; intros HF Hkw; simpl.
  - rewrite Hkw. reflexivity.
  - apply Forall_cons in HF. destruct HF as [Hk HF]. simpl in Hk.
    rewrite Hk. apply IH; assumption.
Qed.

(** C5. On the empty text the category-field matcher answers no match
    whatever the table holds. On any other text the first rule of the
    table whose keyword is in the text ends the scan and its target is the
    answer; a target [None] is therefore the answer no match, and the
    pipeline, with no name rule matching and no answer from the primary
    category field, takes the answer of the same matcher on the tags. *)
Theorem off_category_first_match (table : list (str * option str)) :
  classify_by_off_category_in table [] = None /\
  (forall pre kw tgt post text,
     table = pre ++ (kw, tgt) :: post ->
     text <> [] ->
     Forall (fun r => str_in (fst r) text = false) pre ->
     str_in kw text = true ->
     classify_by_off_category_in table text = tgt) /\
  (forall rules name off_cat tags,
     first_name_rule rules name = None ->
     classify_by_off_category_in table off_cat = None ->
     resolve_category rules table name off_cat tags =
     classify_by_off_category_in table tags).
Proof.
  split; [reflexivity|]. split.
  - intros pre kw tgt post text -> Htext HF Hkw.
    destruct text as [|c text]; [contradiction|].
    apply first_off_rule_first_match; assumption.
  - intros rules name off_cat tags Hname Hoff.
    unfold resolve_category. rewrite Hname, Hoff. reflexivity.
Qed.

(** The rule for plant-based, the first of the table, has the target
    [None]: the text plant-based milks gets no answer, though the rule for
    milk further down would have answered dairy; and a row with no name
    rule and the primary category snacks is answered from its tags. *)
Lemma off_category_first_match_witness :
  classify_by_off_category (u "plant-based milks") = None /\
  resolve_category KEYWORD_RULES OFF_CATEGORY_MAP (u "zzz") (u "snacks")
    (u "en:dairies,en:milks") = Some (u "dairy").
Proof.
  destruct (off_category_first_match OFF_CATEGORY_MAP) as (_ & Hfirst & Hnext).
  split.
  - apply (Hfirst [] (u "plant-based") None
             (skipn 1 OFF_CATEGORY_MAP) (u "plant-based milks")).
    + vm_compute. reflexivity.
    + discriminate.
    + constructor.
    + vm_compute. reflexivity.
  - rewrite (Hnext KEYWORD_RULES (u "zzz") (u "snacks") (u "en:dairies,en:milks")).
    + vm_compute. reflexivity.
    + vm_compute. reflexivity.
    + apply (Hfirst (firstn 66 OFF_CATEGORY_MAP) (u "snack") None
               (skipn 67 OFF_CATEGORY_MAP) (u "snacks")).
      * vm_compute. reflexivity.
      * discriminate.
      * apply (bool_decide_unpack _). vm_compute. exact I.
      * vm_compute. reflexivity.
Defined.

(** ** The loop of [build_database] *)

(** The registry is a closed table: it is evaluated, never unfolded. *)
Opaque CAT UNKNOWN.

Section LoopFacts.
Context `{PyBuiltins}.
Variable rules : list (list str * str).
Variable off_map : list (str * option str).

Local Abbreviation resolve row :=
  (resolve_category rules off_map (row_name row) (row_off_cat row) (row_tags row)).
Local Abbreviation ingredient row :=
  (is_culinary_ingredient (row_name row) (row_off_cat row) (row_tags row)).

(** What each exit of the loop body says of the row and of the state. *)
Lemma loop_body_ok (st st' : State) (row : Row) (e : Exit) :
  loop_body rules off_map st row = Ok (e, st') ->
  match e with
  | SkippedShortName =>
      (length (row_name row) < 2)%nat /\ st' = incr_skipped st
  | SkippedNotIngredient =>
      (2 <= length (row_name row))%nat /\ ingredient row = false /\
      st' = incr_skipped st
  | UnclassifiedNoMatch =>
      (2 <= length (row_name row))%nat /\ ingredient row = true /\
      resolve row = None /\ st' = incr_unclassified st
  | UnclassifiedUnknown =>
      (2 <= length (row_name row))%nat /\ ingredient row = true /\
      (exists cat, resolve row = Some cat /\ CAT_get cat UNKNOWN = UNKNOWN) /\
      st' = incr_unclassified st
  | Classified =>
      exists i, row_classifies rules off_map row i /\
        category_db st' = <[row_name row := i]> (category_db st) /\
        skipped st' = skipped st /\
        classified st' = (classified st + 1)%N /\
        unclassified st' = unclassified st /\
        match meta_db st with
        | None => meta_db st' = None
        | Some mdb =>
            exists meta, collect_meta row i = Ok meta /\
                         meta_db st' = Some (<[row_name row := meta]> mdb)
        end
  end.
Proof.
  unfold loop_body, row_classifies.
  destruct (length (row_name row) <? 2)%nat eqn:Elen;
    [apply Nat.ltb_lt in Elen | apply Nat.ltb_ge in Elen].
  { intros [= <- <-]. split; [exact Elen | reflexivity]. }
  destruct (ingredient row) eqn:Eing; simpl.
  2: { intros [= <- <-]. repeat split; assumption. }
  destruct (resolve row) as [cat|] eqn:Eres.
  2: { intros [= <- <-]. repeat split; assumption. }
  destruct (CAT_get cat UNKNOWN =? UNKNOWN) eqn:Eunk;
    [apply Z.eqb_eq in Eunk | apply Z.eqb_neq in Eunk].
  { intros [= <- <-]. repeat split; try assumption. exists cat. split; [reflexivity | exact Eunk]. }
  destruct (meta_db st) as [mdb|] eqn:Emeta.
  - destruct (collect_meta row (CAT_get cat UNKNOWN)) as [meta|ex] eqn:Ecol; simpl.
    + intros [= <- <-]. exists (CAT_get cat UNKNOWN).
      split; [repeat split; try assumption; exists cat; repeat split; assumption|].
      simpl. repeat split. exists meta. split; [exact Ecol | reflexivity].
    + discriminate.
  - intros [= <- <-]. exists (CAT_get cat UNKNOWN).
    split; [repeat split; try assumption; exists cat; repeat split; assumption|].
    simpl. repeat split. exact Emeta.
Qed.

(** A row that does not take the classified exit leaves both mappings as
    they are. *)
Lemma loop_body_not_classified (st st' : State) (row : Row) (e : Exit) :
  loop_body rules off_map st row = Ok (e, st') ->
  e <> Classified ->
  category_db st' = category_db st /\ meta_db st' = meta_db st.
Proof.
  intros Hbody Hne. apply loop_body_ok in Hbody.
  destruct e; try contradiction;
    repeat match goal with H : _ /\ _ |- _ => destruct H end;
    subst st'; split; reflexivity.
Qed.

(** Without a metadata mapping the loop body raises nothing. *)
Lemma loop_body_total_without_meta (st : State) (row : Row) :
  meta_db st = None ->
  exists e st', loop_body rules off_map st row = Ok (e, st') /\ meta_db st' = None.
Proof.
  intros Hmeta. unfold loop_body.
  destruct (length (row_name row) <? 2)%nat; [eexists _, _; split; [reflexivity | exact Hmeta]|].
  destruct (negb (ingredient row)); [eexists _, _; split; [reflexivity | exact Hmeta]|].
  destruct (resolve row) as [cat|]; [|eexists _, _; split; [reflexivity | exact Hmeta]].
  destruct (CAT_get cat UNKNOWN =? UNKNOWN); [eexists _, _; split; [reflexivity | exact Hmeta]|].
  simpl. rewrite Hmeta. eexists _, _; split; [reflexivity | exact Hmeta].
Qed.

Lemma run_rows_total_without_meta (rows : list Row) (st : State) :
  meta_db st = None -> exists st', run_rows rules off_map st rows = Ok st'.
Proof.
  revert st; induction rows as [|row rows IH]; intros st Hmeta; simpl.
  - exists st. reflexivity.
  - destruct (loop_body_total_without_meta st row Hmeta) as (e & st1 & -> & Hmeta1).
    simpl. apply IH. exact Hmeta1.
Qed.

Lemma run_rows_app (a b : list Row) (st : State) :
  run_rows rules off_map st (a ++ b) =
  match run_rows rules off_map st a with
  | Ok st' => run_rows rules off_map st' b
  | Raise e => Raise e
  end.
Proof.
  revert st; induction a as [|row a IH]; intros st; simpl; [reflexivity|].
  destruct (loop_body rules off_map st row) as [[e st1]|ex]; simpl; [apply IH | reflexivity].
Qed.

Lemma loop_body_no_unknown (st st' : State) (row : Row) (e : Exit) :
  loop_body rules off_map st row = Ok (e, st') ->
  no_unknown (category_db st) -> no_unknown (category_db st').
Proof.
  intros Hbody Hinv.
  destruct (decide (e = Classified)) as [->|Hne].
  - apply loop_body_ok in Hbody.
    destruct Hbody as (i & (_ & _ & cat & _ & _ & Hi) & Hdb & _).
    rewrite Hdb. intros name j. rewrite lookup_insert.
    destruct (decide (row_name row = name)); [intros [= <-]; exact Hi | apply Hinv].
  - destruct (loop_body_not_classified _ _ _ _ Hbody Hne) as [-> _]. exact Hinv.
Qed.

Lemma run_rows_no_unknown (rows : list Row) (st st' : State) :
  run_rows rules off_map st rows = Ok st' ->
  no_unknown (category_db st) -> no_unknown (category_db st').
Proof.
  revert st; induction rows as [|row rows IH]; intros st; simpl.
  - intros [= <-]. auto.
  - destruct (loop_body rules off_map st row) as [[e st1]|ex] eqn:Hbody; simpl; [|discriminate].
    intros Hrun Hinv. apply (IH st1 Hrun).
    apply (loop_body_no_unknown _ _ _ _ Hbody Hinv).
Qed.

(** C3. Whatever the rule tables hold, the category mapping of a finished
    run has no entry with the unknown ordinal (and a run without metadata
    always finishes); a row that passes the filters and resolves to a
    category whose lookup is the unknown ordinal leaves the loop body
    through the unknown exit, with the unclassified counter one higher and
    both mappings as they were. *)
Theorem unknown_never_written :
  (forall rows gm st,
     build_database_in rules off_map rows gm = Ok st ->
     forall name i, category_db st !! name = Some i -> i <> UNKNOWN) /\
  (forall rows, exists st, build_database_in rules off_map rows false = Ok st) /\
  (forall st row cat,
     (2 <= length (row_name row))%nat ->
     ingredient row = true ->
     resolve row = Some cat ->
     CAT_get cat UNKNOWN = UNKNOWN ->
     exists st',
       loop_body rules off_map st row = Ok (UnclassifiedUnknown, st') /\
       category_db st' = category_db st /\
       meta_db st' = meta_db st /\
       unclassified st' = (unclassified st + 1)%N /\
       classified st' = classified st /\
       skipped st' = skipped st).
Proof.
  split; [|split].
  - intros rows gm st Hrun. unfold build_database_in in Hrun.
    apply (run_rows_no_unknown _ _ _ Hrun).
    intros name i. simpl. rewrite lookup_empty. discriminate.
  - intros rows. apply run_rows_total_without_meta. reflexivity.
  - intros st row cat Hlen Hing Hres Hunk.
    exists (incr_unclassified st). split; [|repeat split].
    unfold loop_body.
    apply Nat.ltb_ge in Hlen. rewrite Hlen, Hing. simpl.
    rewrite Hres. apply Z.eqb_eq in Hunk. rewrite Hunk. reflexivity.
Qed.

(** The result of the loop body depends on the state through its two
    mappings alone. *)
Lemma loop_body_same_outputs (st1 st2 : State) (row : Row) :
  category_db st1 = category_db st2 ->
  meta_db st1 = meta_db st2 ->
  match loop_body rules off_map st1 row, loop_body rules off_map st2 row with
  | Ok (e1, s1), Ok (e2, s2) =>
      e1 = e2 /\ category_db s1 = category_db s2 /\ meta_db s1 = meta_db s2
  | Raise x1, Raise x2 => x1 = x2
  | _, _ => False
  end.
Proof.
  intros Hc Hm.
  destruct st1 as [c1 m1 k1 l1 u1], st2 as [c2 m2 k2 l2 u2].
  cbn in Hc, Hm. subst c2 m2. unfold loop_body.
  destruct (length (row_name row) <? 2)%nat; [cbn; repeat split|].
  destruct (negb (ingredient row)); [cbn; repeat split|].
  destruct (resolve row) as [cat|]; [|cbn; repeat split].
  destruct (CAT_get cat UNKNOWN =? UNKNOWN); [cbn; repeat split|].
  cbn [meta_db store_category].
  destruct m1 as [mdb|]; [|cbn; repeat split].
  destruct (collect_meta row (CAT_get cat UNKNOWN)) as [meta|x]; cbn; repeat split.
Qed.

Lemma run_rows_same_outputs (rows : list Row) (st1 st2 : State) :
  category_db st1 = category_db st2 ->
  meta_db st1 = meta_db st2 ->
  outputs (run_rows rules off_map st1 rows) =
  outputs (run_rows rules off_map st2 rows).
Proof.
  revert st1 st2; induction rows as [|row rows IH]; intros st1 st2 Hc Hm.
  - cbn. rewrite Hc, Hm. reflexivity.
  - cbn [run_rows].
    pose proof (loop_body_same_outputs st1 st2 row Hc Hm) as Hstep.
    destruct (loop_body rules off_map st1 row) as [[e1 s1]|x1];
      destruct (loop_body rules off_map st2 row) as [[e2 s2]|x2];
      try contradiction.
    + destruct Hstep as (_ & Hc' & Hm'). cbn. apply IH; assumption.
    + cbn. rewrite Hstep. reflexivity.
Qed.

Lemma run_rows_cons_ok (row : Row) (rows : list Row) (st st' : State) :
  run_rows rules off_map st (row :: rows) = Ok st' ->
  exists e st1, loop_body rules off_map st row = Ok (e, st1) /\
                run_rows rules off_map st1 rows = Ok st'.
Proof.
  cbn [run_rows].
  destruct (loop_body rules off_map st row) as [[e st1]|x]; cbn; [|discriminate].
  intros Hrun. exists e, st1. split; [reflexivity | exact Hrun].
Qed.

Lemma run_rows_app_ok (a b : list Row) (st st' : State) :
  run_rows rules off_map st (a ++ b) = Ok st' ->
  exists st1, run_rows rules off_map st a = Ok st1 /\
              run_rows rules off_map st1 b = Ok st'.
Proof.
  rewrite run_rows_app.
  destruct (run_rows rules off_map st a) as [st1|x]; [|discriminate].
  intros Hrun. exists st1. split; [reflexivity | exact Hrun].
Qed.

(** C6. A row whose normalized name has fewer than two characters leaves
    the loop body through its first exit, whatever the rule tables hold
    and whatever its other fields are: the skipped counter is one higher
    and nothing else changes. Struck from the input, such a row leaves both
    output mappings of the run as they are. *)
Theorem short_name_filtered (st : State) (row : Row) :
  (length (row_name row) < 2)%nat ->
  (exists st',
     loop_body rules off_map st row = Ok (SkippedShortName, st') /\
     category_db st' = category_db st /\
     meta_db st' = meta_db st /\
     skipped st' = (skipped st + 1)%N /\
     classified st' = classified st /\
     unclassified st' = unclassified st) /\
  (forall before after gm,
     outputs (build_database_in rules off_map (before ++ row :: after) gm) =
     outputs (build_database_in rules off_map (before ++ after) gm)).
Proof.
  intros Hlen.
  assert (Hstep : forall s, loop_body rules off_map s row
                            = Ok (SkippedShortName, incr_skipped s)).
  { intros s. unfold loop_body. apply Nat.ltb_lt in Hlen. rewrite Hlen. reflexivity. }
  split.
  - exists (incr_skipped st). split; [apply Hstep | repeat split].
  - intros before after gm. unfold build_database_in.
    rewrite !run_rows_app.
    destruct (run_rows rules off_map (initial_state gm) before) as [s|x];
      [|reflexivity].
    cbn [run_rows]. rewrite Hstep. cbn.
    apply run_rows_same_outputs; reflexivity.
Qed.

(** ** Duplicate names *)

Lemma row_classifies_functional (row : Row) (i j : Z) :
  row_classifies rules off_map row i -> row_classifies rules off_map row j -> i = j.
Proof.
  intros (_ & _ & cat & Hr & Hi & _) (_ & _ & cat' & Hr' & Hj & _).
  congruence.
Qed.

(** A row that classifies with the ordinal [i] stores [i] under its name,
    whatever the mapping held there. *)
Lemma loop_body_classifies_lookup (st st' : State) (row : Row) (e : Exit) (i : Z) :
  loop_body rules off_map st row = Ok (e, st') ->
  row_classifies rules off_map row i ->
  e = Classified /\ category_db st' = <[row_name row := i]> (category_db st).
Proof.
  intros Hbody Hcl. pose proof Hcl as (Hlen & Hing & cat & Hres & Hi & Hne).
  apply loop_body_ok in Hbody. destruct e.
  - destruct Hbody as [Hshort _]. lia.
  - destruct Hbody as (_ & Hno & _). congruence.
  - destruct Hbody as (_ & _ & Hnone & _). congruence.
  - destruct Hbody as (_ & _ & (cat' & Hres' & Hunk) & _). congruence.
  - destruct Hbody as (j & Hcl' & Hdb & _).
    rewrite (row_classifies_functional row i j Hcl Hcl'). split; [reflexivity | exact Hdb].
Qed.

Lemma loop_body_leaves_entry (st st' : State) (row : Row) (e : Exit) (name : str) :
  loop_body rules off_map st row = Ok (e, st') ->
  leaves_entry rules off_map name row ->
  category_db st' !! name = category_db st !! name.
Proof.
  intros Hbody Hleave.
  destruct (decide (e = Classified)) as [->|Hne].
  - apply loop_body_ok in Hbody. destruct Hbody as (i & Hcl & Hdb & _).
    destruct Hleave as [Hname | Hnever]; [|exfalso; exact (Hnever i Hcl)].
    rewrite Hdb. apply lookup_insert_ne. exact Hname.
  - destruct (loop_body_not_classified _ _ _ _ Hbody Hne) as [-> _]. reflexivity.
Qed.

Lemma run_rows_leaves_entry (rows : list Row) (st st' : State) (name : str) :
  run_rows rules off_map st rows = Ok st' ->
  Forall (leaves_entry rules off_map name) rows ->
  category_db st' !! name = category_db st !! name.
Proof.
  revert st; induction rows as [|row rows IH]; intros st Hrun HF.
  - cbn in Hrun. injection Hrun as <-. reflexivity.
  - apply run_rows_cons_ok in Hrun. destruct Hrun as (e & st1 & Hbody & Hrun).
    apply Forall_cons in HF. destruct HF as [Hrow HF].
    rewrite (IH st1 Hrun HF). apply (loop_body_leaves_entry _ _ _ _ _ Hbody Hrow).
Qed.

(** C8. The category mapping is a dictionary, its keys are distinct. When
    two rows of the input have the same normalized name and both classify,
    the run stores the ordinal of the earlier one and then replaces it by
    the ordinal of the later one, which is what the finished run holds
    under that name unless a still later row of that name classifies. A
    run without metadata finishes on every input, duplicates or not. *)
Theorem last_write_wins :
  (forall rows, exists st, build_database_in rules off_map rows false = Ok st) /\
  (forall gm rows st,
     build_database_in rules off_map rows gm = Ok st ->
     NoDup (map fst (map_to_list (category_db st)))) /\
  (forall gm before r1 between r2 after st i1 i2,
     build_database_in rules off_map (before ++ r1 :: between ++ r2 :: after) gm
       = Ok st ->
     row_name r1 = row_name r2 ->
     row_classifies rules off_map r1 i1 ->
     row_classifies rules off_map r2 i2 ->
     Forall (fun r => row_name r <> row_name r2 \/
                      forall i, ~ row_classifies rules off_map r i) after ->
     category_db st !! row_name r2 = Some i2 /\
     exists st1,
       build_database_in rules off_map (before ++ [r1]) gm = Ok st1 /\
       category_db st1 !! row_name r1 = Some i1).
Proof.
  split; [|split].
  - intros rows. apply run_rows_total_without_meta. reflexivity.
  - intros gm rows st _. apply NoDup_fst_map_to_list.
  - intros gm before r1 between r2 after st i1 i2 Hrun Hname Hc1 Hc2 Hafter.
    unfold build_database_in in *.
    apply run_rows_app_ok in Hrun. destruct Hrun as (sA & HrunA & Hrun).
    apply run_rows_cons_ok in Hrun. destruct Hrun as (e1 & s1 & Hb1 & Hrun).
    apply run_rows_app_ok in Hrun. destruct Hrun as (sB & HrunB & Hrun).
    apply run_rows_cons_ok in Hrun. destruct Hrun as (e2 & s2 & Hb2 & Hrun).
    destruct (loop_body_classifies_lookup _ _ _ _ _ Hb1 Hc1) as [-> Hdb1].
    destruct (loop_body_classifies_lookup _ _ _ _ _ Hb2 Hc2) as [-> Hdb2].
    split.
    + rewrite (run_rows_leaves_entry after s2 st (row_name r2) Hrun Hafter).
      rewrite Hdb2. apply lookup_insert_eq.
    + exists s1. split.
      * rewrite run_rows_app, HrunA. cbn [run_rows]. rewrite Hb1. reflexivity.
      * rewrite Hdb1. apply lookup_insert_eq.
Qed.

End LoopFacts.

(** ** Concrete runs, in the builtins of CPython on ASCII text *)

(** Any table with a target outside the registry, or the target unknown,
    shows the unknown exit: here the one name rule has the target
    unknown. *)
Lemma unknown_never_written_witness :
  exists st',
    loop_body (H := ascii_builtins) [([u "mystery"], u "unknown")] []
      (initial_state true) {["product_name" := Some (u "Mystery Box")]}
      = Ok (UnclassifiedUnknown, st') /\
    category_db st' = category_db (initial_state true) /\
    meta_db st' = meta_db (initial_state true) /\
    unclassified st' = (unclassified (initial_state true) + 1)%N /\
    classified st' = classified (initial_state true) /\
    skipped st' = skipped (initial_state true).
Proof.
  apply (proj2 (proj2 (@unknown_never_written ascii_builtins
                         [([u "mystery"], u "unknown")] []))
           (initial_state true) {["product_name" := Some (u "Mystery Box")]}
           (u "unknown")).
  - vm_compute. lia.
  - vm_compute. reflexivity.
  - vm_compute. reflexivity.
  - vm_compute. reflexivity.
Defined.

(** The row with an empty name and the primary category dairy is skipped
    at the first exit and leaves nothing in either mapping. *)
Lemma short_name_filtered_witness :
  outputs (build_database (H := ascii_builtins)
             [ {["product_name" := Some (u ""); "main_category_en" := Some (u "dairy")]} ]
             true)
  = Ok (∅, Some ∅).
Proof.
  assert (Hshort : (length (row_name (H := ascii_builtins)
            {["product_name" := Some (u ""); "main_category_en" := Some (u "dairy")]})
            < 2)%nat) by (vm_compute; lia).
  destruct (@short_name_filtered ascii_builtins KEYWORD_RULES OFF_CATEGORY_MAP
              (initial_state true) _ Hshort) as [_ Hrun].
  pose proof (Hrun [] [] true) as Erun. cbn [app] in Erun.
  unfold build_database. rewrite Erun. reflexivity.
Defined.

(** Two rows of the name zzz, classified by their category fields as
    cheese (5) and then dairy (6): the run ends with 6 under zzz. *)
Lemma last_write_wins_witness :
  exists st,
    build_database (H := ascii_builtins)
      [ {["product_name" := Some (u "Zzz"); "main_category_en" := Some (u "Cheeses")]};
        {["product_name" := Some (u " zzz "); "main_category_en" := Some (u "Milks")]} ]
      false = Ok st /\
    category_db st !! u "zzz" = Some 6.
Proof.
  pose (r1 := ({["product_name" := Some (u "Zzz");
                 "main_category_en" := Some (u "Cheeses")]} : Row)).
  pose (r2 := ({["product_name" := Some (u " zzz ");
                 "main_category_en" := Some (u "Milks")]} : Row)).
  destruct (@last_write_wins ascii_builtins KEYWORD_RULES OFF_CATEGORY_MAP)
    as (Htotal & _ & Hlast).
  destruct (Htotal [r1; r2]) as [st Hst].
  exists st. split; [exact Hst|].
  change (u "zzz") with (row_name (H := ascii_builtins) r2).
  apply (Hlast false [] r1 [] r2 [] st 5 6 Hst).
  - vm_compute. reflexivity.
  - split; [vm_compute; lia|]. split; [vm_compute; reflexivity|].
    exists (u "cheese"). split; [vm_compute; reflexivity|].
    split; [vm_compute; reflexivity | vm_compute; discriminate].
  - split; [vm_compute; lia|]. split; [vm_compute; reflexivity|].
    exists (u "dairy"). split; [vm_compute; reflexivity|].
    split; [vm_compute; reflexivity | vm_compute; discriminate].
  - constructor.
Defined.

(** ** Metadata of a classified row *)

Section MetaFacts.
Context `{PyBuiltins}.

Lemma store_kcal_raises (row : Row) (meta : gmap string MetaVal) (e : exn) :
  store_kcal row meta = Raise e <-> kcal_overflows row.
Proof.
  unfold store_kcal, kcal_overflows.
  destruct (row_get row "energy-kcal_100g") as [[|c s]|] eqn:Eget.
  - split; [discriminate | intros (c & s & x & Hc & _); discriminate].
  - destruct (float_of_str (c :: s)) as [x|] eqn:Efloat.
    + destruct (round_int x) eqn:Eround.
      * split; [discriminate|]. intros (c' & s' & x' & [= <- <-] & Hf & Hr). congruence.
      * split; [discriminate|]. intros (c' & s' & x' & [= <- <-] & Hf & Hr). congruence.
      * split; [|destruct e; reflexivity].
        intros _. exists c, s, x. repeat split; assumption.
    + split; [discriminate|]. intros (c' & s' & x' & [= <- <-] & Hf & _). congruence.
  - split; [discriminate | intros (c & s & x & Hc & _); discriminate].
Qed.

Lemma collect_meta_raises (row : Row) (i : Z) (e : exn) :
  collect_meta row i = Raise e <-> kcal_overflows row.
Proof.
  unfold collect_meta.
  rewrite <- (store_kcal_raises row
                (store_allergens row (store_labels row {["cat" := MInt i]})) e).
  destruct (store_kcal row _) as [meta|x]; cbn.
  - split; discriminate.
  - split; intros _; destruct x, e; reflexivity.
Qed.

(** The loop body raises exactly on a row that classifies, with the
    metadata mapping enabled, whose energy field overflows [round]. *)
Lemma loop_body_raises (rules : list (list str * str))
  (off_map : list (str * option str)) (st : State) (row : Row) (e : exn) :
  loop_body rules off_map st row = Raise e <->
  meta_db st <> None /\ (exists i, row_classifies rules off_map row i) /\
  kcal_overflows row.
Proof.
  unfold loop_body, row_classifies.
  destruct (length (row_name row) <? 2)%nat eqn:Elen;
    [apply Nat.ltb_lt in Elen | apply Nat.ltb_ge in Elen].
  { split; [discriminate | intros (_ & (i & Hlen & _) & _); lia]. }
  destruct (is_culinary_ingredient _ _ _) eqn:Eing; cbn [negb].
  2: { split; [discriminate | intros (_ & (i & _ & Hing & _) & _); discriminate]. }
  destruct (resolve_category _ _ _ _ _) as [cat|] eqn:Eres.
  2: { split; [discriminate | intros (_ & (i & _ & _ & c & Hc & _) & _); discriminate]. }
  destruct (CAT_get cat UNKNOWN =? UNKNOWN) eqn:Eunk;
    [apply Z.eqb_eq in Eunk | apply Z.eqb_neq in Eunk].
  { split; [discriminate|].
    intros (_ & (i & _ & _ & c & [= <-] & Hi & Hne) & _). congruence. }
  cbn [meta_db store_category].
  destruct (meta_db st) as [mdb|].
  - rewrite <- (collect_meta_raises row (CAT_get cat UNKNOWN) e).
    destruct (collect_meta row (CAT_get cat UNKNOWN)) as [meta|x]; cbn.
    + split; [discriminate | intros (_ & _ & Hr); discriminate].
    + split.
      * intros _. split; [discriminate|]. split; [|destruct x, e; reflexivity].
        exists (CAT_get cat UNKNOWN). repeat split; try assumption.
        exists cat. repeat split; assumption.
      * intros _. destruct x, e. reflexivity.
  - split; [discriminate | intros (Hm & _); contradiction].
Qed.

(** With both labels present only the vegan flag is set. *)
Lemma store_labels_vegan (row : Row) (meta : gmap string MetaVal) :
  str_in (u "vegan") (str_lower (or_empty (row_get row "labels_en"))) = true ->
  store_labels row meta = <["vegan" := MBool true]> meta.
Proof.
  intros Hv. unfold store_labels. cbv zeta. rewrite Hv. reflexivity.
Qed.

(** A nutrition field that [float] rejects leaves the record as it is; one
    it accepts is stored rounded to the digits of its block. *)
Lemma store_rounded_cases (row : Row) (column key : string) (ndigits : nat)
  (meta : gmap string MetaVal) (c : N) (s : str) :
  row_get row column = Some (c :: s) ->
  store_rounded row column key ndigits meta =
  match float_of_str (c :: s) with
  | None => meta
  | Some x => <[key := MFloat (round_ndigits x ndigits)]> meta
  end.
Proof.
  intros Hget. unfold store_rounded. rewrite Hget. reflexivity.
Qed.

End MetaFacts.

(** C7. With metadata enabled, the classified row whose energy field is
    the text inf ends the run with [OverflowError]: [float] accepts the
    text, [round] of an infinity raises, and the handler around the
    assignment catches [ValueError] alone. The value is neither dropped nor
    rounded, and the record and the run are aborted, against the claim. The
    texts nan and abc in the same field are dropped and the run goes on,
    and inf in the protein field is stored as an infinity. *)
Theorem kcal_infinity_aborts_run :
  build_database (H := ascii_builtins)
    [ {["product_name" := Some (u "milk"); "energy-kcal_100g" := Some (u "inf")]} ]
    true = Raise OverflowError /\
  outputs (build_database (H := ascii_builtins)
    [ {["product_name" := Some (u "milk"); "energy-kcal_100g" := Some (u "nan")]} ]
    true) = Ok ({[u "milk" := 6]}, Some {[u "milk" := {["cat" := MInt 6]}]}) /\
  outputs (build_database (H := ascii_builtins)
    [ {["product_name" := Some (u "milk"); "energy-kcal_100g" := Some (u "abc")]} ]
    true) = Ok ({[u "milk" := 6]}, Some {[u "milk" := {["cat" := MInt 6]}]}) /\
  outputs (build_database (H := ascii_builtins)
    [ {["product_name" := Some (u "milk"); "proteins_100g" := Some (u "inf")]} ]
    true) = Ok ({[u "milk" := 6]},
                Some {[u "milk" := {["cat" := MInt 6;
                                     "protein" := MFloat (S754_infinity false)]}]}).
Proof.
  repeat split; vm_compute; reflexivity.
Qed.

(** The scenarios the specification lists for the engine. *)
Example scenario_sun_dried_tomato :
  classify_by_name (u "sun-dried tomato in olive oil") = Some (u "pantry").
Proof. vm_compute. reflexivity. Qed.

Example scenario_cola : classify_by_name (u "cola") = Some (u "pop").
Proof. vm_compute. reflexivity. Qed.

Example scenario_pizza :
  loop_body (H := ascii_builtins) KEYWORD_RULES OFF_CATEGORY_MAP (initial_state false)
    {["product_name" := Some (u "Pizza Margherita");
      "main_category_en" := Some (u "cheese")]}
  = Ok (SkippedNotIngredient, incr_skipped (initial_state false)).
Proof. reflexivity. Qed.

Example scenario_digit_run :
  loop_body (H := ascii_builtins) KEYWORD_RULES OFF_CATEGORY_MAP (initial_state false)
    {["product_name" := Some (u "generic snack mix 12345678")]}
  = Ok (SkippedNotIngredient, incr_skipped (initial_state false)).
Proof. reflexivity. Qed.

Example scenario_rounding :
  outputs (build_database (H := ascii_builtins)
    [ {["product_name" := Some (u "Whole Milk");
        "labels_en" := Some (u "Vegetarian, Vegan");
        "energy-kcal_100g" := Some (u "64.5");
        "proteins_100g" := Some (u "3.25");
        "fat_100g" := Some (u "oops");
        "sodium_100g" := Some (u "0.0445")]} ]
    true)
  = Ok ({[u "whole milk" := 6]},
        Some {[u "whole milk" :=
                 {["cat" := MInt 6; "vegan" := MBool true; "kcal" := MInt 64;
                   "protein" := MFloat (S754_finite false 7205759403792794 (-51));
                   "sodium" := MFloat (S754_finite false 6341068275337658 (-57))]}]}).
Proof. reflexivity. Qed.

(** * Further properties of the run *)

Section RunFacts.
Context `{PyBuiltins}.
Variable rules : list (list str * str).
Variable off_map : list (str * option str).

Lemma row_entry_some (row : Row) (name : str) (i : Z) :
  row_entry rules off_map row = Some (name, i) <->
  name = row_name row /\ row_classifies rules off_map row i.
Proof.
  unfold row_entry, row_classifies.
  destruct (length (row_name row) <? 2)%nat eqn:Elen;
    [apply Nat.ltb_lt in Elen | apply Nat.ltb_ge in Elen].
  { split; [discriminate | intros (_ & Hlen & _); lia]. }
  destruct (is_culinary_ingredient _ _ _) eqn:Eing; cbn [negb].
  2: { split; [discriminate | intros (_ & _ & Hing & _); discriminate]. }
  destruct (resolve_category _ _ _ _ _) as [cat|] eqn:Eres.
  2: { split; [discriminate | intros (_ & _ & _ & c & Hc & _); discriminate]. }
  cbv zeta.
  destruct (CAT_get cat UNKNOWN =? UNKNOWN) eqn:Eunk;
    [apply Z.eqb_eq in Eunk | apply Z.eqb_neq in Eunk].
  { split; [discriminate|]. intros (_ & _ & _ & c & [= <-] & Hi & Hne). congruence. }
  split.
  - intros [= <- <-]. repeat split; try assumption.
    exists cat. repeat split; assumption.
  - intros (-> & _ & _ & c & [= <-] & <- & _). reflexivity.
Qed.

Lemma row_entry_none (row : Row) :
  row_entry rules off_map row = None <->
  forall i, ~ row_classifies rules off_map row i.
Proof.
  destruct (row_entry rules off_map row) as [[name i]|] eqn:E.
  - apply row_entry_some in E. destruct E as [_ Hcl].
    split; [discriminate | intros Hno; exfalso; exact (Hno i Hcl)].
  - split; [|reflexivity]. intros _ i Hcl.
    assert (E' : row_entry rules off_map row = Some (row_name row, i))
      by (apply row_entry_some; split; [reflexivity | exact Hcl]).
    congruence.
Qed.

(** The loop body changes the category mapping by the entry of the row and
    by nothing else. *)
Lemma loop_body_store_entry (st st' : State) (row : Row) (e : Exit) :
  loop_body rules off_map st row = Ok (e, st') ->
  category_db st' = store_entry (category_db st) (row_entry rules off_map row) /\
  (e = Classified <-> row_entry rules off_map row <> None).
Proof.
  intros Hbody.
  destruct (decide (e = Classified)) as [->|Hne].
  - apply loop_body_ok in Hbody. destruct Hbody as (i & Hcl & Hdb & _).
    assert (E : row_entry rules off_map row = Some (row_name row, i))
      by (apply row_entry_some; split; [reflexivity | exact Hcl]).
    rewrite E. split; [exact Hdb | split; [discriminate | reflexivity]].
  - assert (E : row_entry rules off_map row = None).
    { apply row_entry_none. intros i Hcl.
      destruct (loop_body_classifies_lookup _ _ _ _ _ _ _ Hbody Hcl) as [He _].
      contradiction. }
    rewrite E. destruct (loop_body_not_classified _ _ _ _ _ _ Hbody Hne) as [-> _].
    split; [reflexivity | split; [contradiction | intros Hx; contradiction]].
Qed.

(** Whether metadata is collected does not change along a run. *)
Lemma loop_body_meta_enabled (st st' : State) (row : Row) (e : Exit) :
  loop_body rules off_map st row = Ok (e, st') ->
  (meta_db st' = None <-> meta_db st = None).
Proof.
  intros Hbody.
  destruct (decide (e = Classified)) as [->|Hne].
  - apply loop_body_ok in Hbody. destruct Hbody as (i & _ & _ & _ & _ & _ & Hmeta).
    destruct (meta_db st) as [mdb|].
    + destruct Hmeta as (meta & _ & ->). split; discriminate.
    + rewrite Hmeta. split; reflexivity.
  - destruct (loop_body_not_classified _ _ _ _ _ _ Hbody Hne) as [_ ->].
    split; auto.
Qed.

Lemma run_rows_raises (rows : list Row) (st : State) (e : exn) :
  run_rows rules off_map st rows = Raise e <->
  meta_db st <> None /\
  Exists (fun r => (exists i, row_classifies rules off_map r i) /\ kcal_overflows r)
    rows.
Proof.
  revert st; induction rows as [|row rows IH]; intros st.
  - cbn. split; [discriminate | intros [_ HE]; inversion HE].
  - cbn [run_rows]. rewrite Exists_cons.
    destruct (loop_body rules off_map st row) as [[e' st1]|x] eqn:Hbody; cbn.
    + rewrite IH. rewrite (loop_body_meta_enabled _ _ _ _ Hbody). split.
      * intros [Hm HE]. split; [exact Hm | right; exact HE].
      * intros [Hm [[Hcl Hov] | HE]]; [|split; assumption].
        exfalso.
        assert (Hr : loop_body rules off_map st row = Raise OverflowError)
          by (apply loop_body_raises; repeat split; assumption).
        congruence.
    + apply loop_body_raises in Hbody. destruct Hbody as (Hm & Hcl & Hov).
      split; [|intros _; destruct x, e; reflexivity].
      intros _. split; [exact Hm | left; split; assumption].
Qed.


(** ** Accounting of a run *)

Lemma loop_body_accounting (st st' : State) (row : Row) (e : Exit) :
  loop_body rules off_map st row = Ok (e, st') ->
  let n := length (omap (row_entry rules off_map) [row]) in
  (skipped st' + classified st' + unclassified st'
   = skipped st + classified st + unclassified st + 1)%N /\
  classified st' = (classified st + N.of_nat n)%N /\
  (size (category_db st') <= size (category_db st) + n)%nat.
Proof.
  intros Hbody. cbv zeta.
  destruct (loop_body_store_entry _ _ _ _ Hbody) as [Hdb Hcl].
  apply loop_body_ok in Hbody.
  destruct (row_entry rules off_map row) as [[name i]|] eqn:E; cbn [omap list_omap length].
  - assert (He : e = Classified) by (apply Hcl; discriminate). subst e.
    destruct Hbody as (j & _ & _ & Hs & Hc & Hu & _).
    rewrite Hs, Hc, Hu, Hdb. cbn [store_entry]. rewrite E. cbn.
    rewrite map_size_insert. split; [lia|]. split; [lia|].
    destruct (category_db st !! name); cbn; lia.
  - assert (He : e <> Classified) by (intros He; apply Hcl in He; contradiction).
    rewrite Hdb. rewrite E. cbn.
    destruct e; try contradiction;
      repeat match goal with Hx : _ /\ _ |- _ => destruct Hx end;
      subst st'; cbn; repeat split; lia.
Qed.

Lemma run_rows_accounting (rows : list Row) (st st' : State) :
  run_rows rules off_map st rows = Ok st' ->
  let n := length (omap (row_entry rules off_map) rows) in
  (skipped st' + classified st' + unclassified st'
   = skipped st + classified st + unclassified st + N.of_nat (length rows))%N /\
  classified st' = (classified st + N.of_nat n)%N /\
  (size (category_db st') <= size (category_db st) + n)%nat.
Proof.
  revert st; induction rows as [|row rows IH]; intros st Hrun; cbv zeta.
  - cbn in Hrun. injection Hrun as <-. cbn. repeat split; lia.
  - apply run_rows_cons_ok in Hrun. destruct Hrun as (e & st1 & Hbody & Hrun).
    apply loop_body_accounting in Hbody. cbv zeta in Hbody.
    destruct Hbody as (Hsum & Hc & Hsize).
    destruct (IH st1 Hrun) as (Hsum' & Hc' & Hsize').
    assert (Ho : length (omap (row_entry rules off_map) (row :: rows))
                 = (length (omap (row_entry rules off_map) [row])
                    + length (omap (row_entry rules off_map) rows))%nat)
      by (rewrite <- length_app, <- omap_app; reflexivity).
    rewrite Ho. cbn [length]. repeat split; lia.
Qed.

(** X2. In the state a run ends with, the three counters add up to the
    number of rows read, the classified counter is the number of rows that
    store an entry, and the category mapping has at most that many
    entries. *)
Theorem run_accounting (rows : list Row) (generate_meta : bool) (st : State) :
  build_database_in rules off_map rows generate_meta = Ok st ->
  (skipped st + classified st + unclassified st = N.of_nat (length rows))%N /\
  classified st = N.of_nat (length (omap (row_entry rules off_map) rows)) /\
  (N.of_nat (size (category_db st)) <= classified st)%N /\
  (classified st <= N.of_nat (length rows))%N.
Proof.
  intros Hrun. apply run_rows_accounting in Hrun. cbv zeta in Hrun.
  destruct Hrun as (Hsum & Hc & Hsize).
  change (size (category_db (initial_state generate_meta))) with (size (∅ : gmap (list N) Z)) in Hsize.
  rewrite map_size_empty in Hsize. cbn in Hsum, Hc.
  repeat split; lia.
Qed.

(** ** Where the entries of the category mapping come from *)

Lemma is_culinary_ingredient_true (name off_cat tags : str) :
  is_culinary_ingredient name off_cat tags = true ->
  (length name <= 60)%nat /\ re_search_digits 5 name = false /\
  forall w, In w skip_words -> str_in w name = false.
Proof.
  unfold is_culinary_ingredient.
  destruct (60 <? length name)%nat eqn:Elen; [discriminate|].
  destruct (re_search_digits 5 name); [discriminate|].
  destruct (existsb _ skip_words) eqn:Edeny; [discriminate|].
  intros _. apply Nat.ltb_ge in Elen. repeat split; [exact Elen|].
  intros w Hw. destruct (str_in w name) eqn:Ew; [|reflexivity].
  assert (existsb (fun w => str_in w name) skip_words = true)
    by (apply existsb_exists; exists w; split; assumption).
  congruence.
Qed.

Lemma run_rows_entries (rows : list Row) (st st' : State) (name : str) (i : Z) :
  run_rows rules off_map st rows = Ok st' ->
  category_db st' !! name = Some i ->
  category_db st !! name = Some i \/
  exists row, In row rows /\ row_name row = name /\
              row_classifies rules off_map row i.
Proof.
  revert st; induction rows as [|row rows IH]; intros st Hrun Hlook.
  - cbn in Hrun. injection Hrun as <-. left. exact Hlook.
  - apply run_rows_cons_ok in Hrun. destruct Hrun as (e & st1 & Hbody & Hrun).
    destruct (IH st1 Hrun Hlook) as [Hold | (r & Hin & Hname & Hcl)].
    + destruct (loop_body_store_entry _ _ _ _ Hbody) as [Hdb _].
      rewrite Hdb in Hold.
      destruct (row_entry rules off_map row) as [[n j]|] eqn:E; cbn in Hold.
      * apply row_entry_some in E. destruct E as [-> Hcl].
        rewrite lookup_insert in Hold.
        destruct (decide (row_name row = name)) as [Heq|Hne].
        -- injection Hold as <-. right. exists row.
           split; [left; reflexivity | split; assumption].
        -- left. exact Hold.
      * left. exact Hold.
    + right. exists r. split; [right; exact Hin | split; assumption].
Qed.

Lemma run_rows_keeps_keys (rows : list Row) (st st' : State) (name : str) :
  run_rows rules off_map st rows = Ok st' ->
  is_Some (category_db st !! name) -> is_Some (category_db st' !! name).
Proof.
  revert st; induction rows as [|row rows IH]; intros st Hrun Hsome.
  - cbn in Hrun. injection Hrun as <-. exact Hsome.
  - apply run_rows_cons_ok in Hrun. destruct Hrun as (e & st1 & Hbody & Hrun).
    apply (IH st1 Hrun).
    destruct (loop_body_store_entry _ _ _ _ Hbody) as [-> _].
    destruct (row_entry rules off_map row) as [[n j]|]; cbn; [|exact Hsome].
    rewrite lookup_insert. destruct (decide (n = name)); [eexists; reflexivity | exact Hsome].
Qed.

(** X3. Every entry of the category mapping of a finished run is the name
    and the ordinal of an input row that classifies: its key has between 2
    and 60 characters, no run of five digits and no word of the denylist,
    and its value is not the unknown ordinal. Conversely the name of every
    row that classifies is a key of the mapping. *)
Theorem output_entries_come_from_rows (rows : list Row) (generate_meta : bool)
  (st : State) :
  build_database_in rules off_map rows generate_meta = Ok st ->
  (forall name i, category_db st !! name = Some i ->
     (exists row, In row rows /\ row_name row = name /\
                  row_classifies rules off_map row i) /\
     (2 <= length name <= 60)%nat /\
     re_search_digits 5 name = false /\
     (forall w, In w skip_words -> str_in w name = false) /\
     i <> UNKNOWN) /\
  (forall row i, In row rows -> row_classifies rules off_map row i ->
     is_Some (category_db st !! row_name row)).
Proof.
  intros Hrun. unfold build_database_in in Hrun. split.
  - intros name i Hlook.
    destruct (run_rows_entries _ _ _ _ _ Hrun Hlook) as [Hinit | (row & Hin & Hname & Hcl)].
    { cbn in Hinit. rewrite lookup_empty in Hinit. discriminate. }
    pose proof Hcl as (Hlen & Hing & cat & _ & _ & Hne).
    apply is_culinary_ingredient_true in Hing. destruct Hing as (H60 & Hrun5 & Hdeny).
    split; [exists row; split; [exact Hin | split; [exact Hname | exact Hcl]]|].
    rewrite Hname in Hlen, H60, Hrun5, Hdeny.
    repeat split; assumption.
  - intros row i Hin Hcl.
    apply In_split in Hin. destruct Hin as (before & after & ->).
    apply run_rows_app_ok in Hrun. destruct Hrun as (sA & _ & Hrun).
    apply run_rows_cons_ok in Hrun. destruct Hrun as (e & s1 & Hbody & Hrun).
    apply (run_rows_keeps_keys _ _ _ _ Hrun).
    destruct (loop_body_classifies_lookup _ _ _ _ _ _ _ Hbody Hcl) as [_ ->].
    rewrite lookup_insert_eq. eexists; reflexivity.
Qed.

(** ** Runs over a concatenated input *)

Lemma loop_body_meta_entry (st st' : State) (row : Row) (e : Exit) :
  loop_body rules off_map st row = Ok (e, st') ->
  meta_db st' =
  option_map (fun mdb => store_entry mdb (row_meta_entry rules off_map row))
    (meta_db st).
Proof.
  intros Hbody. unfold row_meta_entry.
  destruct (loop_body_store_entry _ _ _ _ Hbody) as [_ Hcl].
  destruct (decide (e = Classified)) as [->|Hne].
  - apply loop_body_ok in Hbody. destruct Hbody as (i & Hc & _ & _ & _ & _ & Hmeta).
    assert (E : row_entry rules off_map row = Some (row_name row, i))
      by (apply row_entry_some; split; [reflexivity | exact Hc]).
    rewrite E. destruct (meta_db st) as [mdb|]; [|exact Hmeta].
    destruct Hmeta as (meta & -> & ->). reflexivity.
  - assert (E : row_entry rules off_map row = None).
    { destruct (row_entry rules off_map row); [|reflexivity].
      exfalso. apply Hne. apply Hcl. discriminate. }
    rewrite E. destruct (loop_body_not_classified _ _ _ _ _ _ Hbody Hne) as [_ ->].
    destruct (meta_db st); reflexivity.
Qed.

Lemma run_rows_stores (rows : list Row) (st st' : State) :
  run_rows rules off_map st rows = Ok st' ->
  category_db st' =
    fold_left store_entry (map (row_entry rules off_map) rows) (category_db st) /\
  meta_db st' =
    option_map (fold_left store_entry (map (row_meta_entry rules off_map) rows))
      (meta_db st).
Proof.
  revert st; induction rows as [|row rows IH]; intros st Hrun.
  - cbn in Hrun. injection Hrun as <-. cbn. split; [reflexivity|].
    destruct (meta_db st); reflexivity.
  - apply run_rows_cons_ok in Hrun. destruct Hrun as (e & st1 & Hbody & Hrun).
    destruct (IH st1 Hrun) as [Hdb Hmeta].
    destruct (loop_body_store_entry _ _ _ _ Hbody) as [Hdb1 _].
    pose proof (loop_body_meta_entry _ _ _ _ Hbody) as Hmeta1.
    rewrite Hdb, Hmeta, Hdb1, Hmeta1. cbn [map fold_left]. split; [reflexivity|].
    destruct (meta_db st); reflexivity.
Qed.

(** Replaying entries over a mapping is replaying them over the empty
    mapping and filling the gaps from the mapping. *)
Lemma fold_store_entry_union {V : Type} (es : list (option (list N * V)))
  (db : gmap (list N) V) :
  fold_left store_entry es db = fold_left store_entry es ∅ ∪ db.
Proof.
  revert db; induction es as [|entry es IH]; intros db; cbn [fold_left].
  - rewrite (left_id_L ∅ (∪)). reflexivity.
  - rewrite (IH (store_entry db entry)), (IH (store_entry ∅ entry)).
    destruct entry as [[name v]|]; cbn [store_entry].
    + rewrite <- (assoc_L (∪)). f_equal.
      rewrite (insert_union_singleton_l db), (insert_union_singleton_l ∅).
      rewrite (right_id_L ∅ (∪)). reflexivity.
    + rewrite (right_id_L ∅ (∪)). reflexivity.
Qed.

Lemma run_rows_meta_enabled (rows : list Row) (st st' : State) :
  run_rows rules off_map st rows = Ok st' ->
  (meta_db st' = None <-> meta_db st = None).
Proof.
  revert st; induction rows as [|row rows IH]; intros st Hrun.
  - cbn in Hrun. injection Hrun as <-. reflexivity.
  - apply run_rows_cons_ok in Hrun. destruct Hrun as (e & st1 & Hbody & Hrun).
    rewrite (IH st1 Hrun). apply (loop_body_meta_enabled _ _ _ _ Hbody).
Qed.

(** Whether a run over given rows finishes depends on the state it starts
    from only through metadata being collected or not. *)
Lemma run_rows_ok_transfer (rows : list Row) (sa sa' sb : State) :
  run_rows rules off_map sa rows = Ok sa' ->
  (meta_db sb = None <-> meta_db sa = None) ->
  exists sb', run_rows rules off_map sb rows = Ok sb'.
Proof.
  intros Hrun Hmeta.
  destruct (run_rows rules off_map sb rows) as [sb'|x] eqn:E; [exists sb'; reflexivity|].
  apply run_rows_raises in E. destruct E as [Hm HE].
  assert (Hr : run_rows rules off_map sa rows = Raise OverflowError).
  { apply run_rows_raises. split; [|exact HE]. intros Hn. apply Hm, Hmeta, Hn. }
  congruence.
Qed.

Lemma loop_body_deltas (sa sa' sb sb' : State) (row : Row) (ea eb : Exit) :
  loop_body rules off_map sa row = Ok (ea, sa') ->
  loop_body rules off_map sb row = Ok (eb, sb') ->
  ea = eb /\
  (skipped sa' + skipped sb = skipped sb' + skipped sa)%N /\
  (classified sa' + classified sb = classified sb' + classified sa)%N /\
  (unclassified sa' + unclassified sb = unclassified sb' + unclassified sa)%N.
Proof.
  unfold loop_body.
  destruct (length (row_name row) <? 2)%nat.
  { intros [= <- <-] [= <- <-]. cbn. repeat split; lia. }
  destruct (negb (is_culinary_ingredient _ _ _)).
  { intros [= <- <-] [= <- <-]. cbn. repeat split; lia. }
  destruct (resolve_category _ _ _ _ _) as [cat|].
  2: { intros [= <- <-] [= <- <-]. cbn. repeat split; lia. }
  destruct (CAT_get cat UNKNOWN =? UNKNOWN).
  { intros [= <- <-] [= <- <-]. cbn. repeat split; lia. }
  cbn [meta_db store_category].
  destruct (collect_meta row (CAT_get cat UNKNOWN)) as [meta|x];
    destruct (meta_db sa), (meta_db sb); cbn;
    try discriminate; intros [= <- <-] [= <- <-]; cbn; repeat split; lia.
Qed.

Lemma run_rows_deltas (rows : list Row) (sa sa' sb sb' : State) :
  run_rows rules off_map sa rows = Ok sa' ->
  run_rows rules off_map sb rows = Ok sb' ->
  (skipped sa' + skipped sb = skipped sb' + skipped sa)%N /\
  (classified sa' + classified sb = classified sb' + classified sa)%N /\
  (unclassified sa' + unclassified sb = unclassified sb' + unclassified sa)%N.
Proof.
  revert sa sb; induction rows as [|row rows IH]; intros sa sb Ha Hb.
  - cbn in Ha, Hb. injection Ha as <-. injection Hb as <-. repeat split; lia.
  - apply run_rows_cons_ok in Ha. destruct Ha as (ea & sa1 & Hba & Ha).
    apply run_rows_cons_ok in Hb. destruct Hb as (eb & sb1 & Hbb & Hb).
    destruct (loop_body_deltas _ _ _ _ _ _ _ Hba Hbb) as (_ & H1 & H2 & H3).
    destruct (IH sa1 sb1 Ha Hb) as (H1' & H2' & H3').
    repeat split; lia.
Qed.

(** X4. A finished run over two inputs one after the other is the merge of
    the runs over each: both finish, the category mapping is that of the
    second input completed by that of the first (on a name in both, the
    second wins), the metadata mapping likewise, and each counter is the
    sum of the two. *)
Theorem run_of_concatenation (rows1 rows2 : list Row) (generate_meta : bool)
  (st : State) :
  build_database_in rules off_map (rows1 ++ rows2) generate_meta = Ok st ->
  exists st1 st2,
    build_database_in rules off_map rows1 generate_meta = Ok st1 /\
    build_database_in rules off_map rows2 generate_meta = Ok st2 /\
    category_db st = category_db st2 ∪ category_db st1 /\
    meta_db st =
      match meta_db st2, meta_db st1 with
      | Some m2, Some m1 => Some (m2 ∪ m1)
      | _, _ => None
      end /\
    skipped st = (skipped st1 + skipped st2)%N /\
    classified st = (classified st1 + classified st2)%N /\
    unclassified st = (unclassified st1 + unclassified st2)%N.
Proof.
  unfold build_database_in. intros Hrun.
  apply run_rows_app_ok in Hrun. destruct Hrun as (st1 & Hrun1 & Hrun2).
  pose proof (run_rows_meta_enabled _ _ _ Hrun1) as Hen.
  destruct (run_rows_ok_transfer rows2 st1 st (initial_state generate_meta) Hrun2)
    as [st2 Hrun2']; [symmetry; exact Hen|].
  exists st1, st2. split; [exact Hrun1|]. split; [exact Hrun2'|].
  destruct (run_rows_stores _ _ _ Hrun2) as [Hdb Hmeta].
  destruct (run_rows_stores _ _ _ Hrun2') as [Hdb' Hmeta'].
  destruct (run_rows_deltas _ _ _ _ _ Hrun2 Hrun2') as (H1 & H2 & H3).
  cbn in H1, H2, H3.
  split; [|split; [|repeat split; lia]].
  - rewrite Hdb, Hdb'. cbn [category_db initial_state]. apply fold_store_entry_union.
  - rewrite Hmeta, Hmeta'. cbn [meta_db initial_state].
    destruct generate_meta; destruct (meta_db st1) as [m1|] eqn:E1; cbn;
      try reflexivity.
    + rewrite (fold_store_entry_union _ m1). reflexivity.
    + exfalso. assert (Hn : meta_db (initial_state false) = None) by reflexivity.
      apply Hen in Hn. congruence.
Qed.

(** X5. Reading the same input twice in a row gives the output mappings
    of reading it once, or the same exception. *)
Theorem rerun_same_outputs (rows : list Row) (generate_meta : bool) :
  outputs (build_database_in rules off_map (rows ++ rows) generate_meta) =
  outputs (build_database_in rules off_map rows generate_meta).
Proof.
  unfold build_database_in. rewrite run_rows_app.
  destruct (run_rows rules off_map (initial_state generate_meta) rows)
    as [st1|x] eqn:Hrun1; [|reflexivity].
  pose proof (run_rows_meta_enabled _ _ _ Hrun1) as Hen.
  destruct (run_rows_ok_transfer rows _ st1 st1 Hrun1) as [st Hrun2]; [exact Hen|].
  rewrite Hrun2. cbn [outputs].
  destruct (run_rows_stores _ _ _ Hrun2) as [Hdb Hmeta].
  destruct (run_rows_stores _ _ _ Hrun1) as [Hdb1 Hmeta1].
  cbn [category_db meta_db initial_state] in Hdb1, Hmeta1.
  f_equal. f_equal.
  - rewrite Hdb, fold_store_entry_union, <- Hdb1. apply (idemp_L (∪)).
  - rewrite Hmeta. destruct (meta_db st1) as [m1|] eqn:E1; [|reflexivity].
    cbn. f_equal. rewrite fold_store_entry_union.
    destruct generate_meta; cbn in Hmeta1; [|discriminate].
    injection Hmeta1 as Hm1. rewrite <- Hm1. apply (idemp_L (∪)).
Qed.

(** ** The metadata mapping *)

Lemma store_rounded_lookup_ne (row : Row) (column key : string) (ndigits : nat)
  (meta : gmap string MetaVal) (k : string) :
  k <> key -> store_rounded row column key ndigits meta !! k = meta !! k.
Proof.
  intros Hk. unfold store_rounded.
  destruct (row_get row column) as [[|c s]|]; try reflexivity.
  destruct (float_of_str (c :: s)); [|reflexivity].
  apply lookup_insert_ne. congruence.
Qed.

Lemma store_kcal_lookup_ne (row : Row) (meta meta' : gmap string MetaVal)
  (k : string) :
  store_kcal row meta = Ok meta' -> k <> "kcal"%string -> meta' !! k = meta !! k.
Proof.
  unfold store_kcal. intros Hs Hk.
  destruct (row_get row "energy-kcal_100g") as [[|c s]|];
    try (injection Hs as <-; reflexivity).
  destruct (float_of_str (c :: s)) as [x|]; [|injection Hs as <-; reflexivity].
  destruct (round_int x); try (injection Hs as <-); try discriminate;
    [apply lookup_insert_ne; congruence | reflexivity].
Qed.

Lemma store_allergens_lookup_ne (row : Row) (meta : gmap string MetaVal)
  (k : string) :
  k <> "allergens"%string -> store_allergens row meta !! k = meta !! k.
Proof.
  intros Hk. unfold store_allergens. cbv zeta.
  destruct (str_strip _); [reflexivity|].
  apply lookup_insert_ne. congruence.
Qed.

(** The record of a row holds the ordinal of the row under [cat], and at
    most one of the two dietary flags. *)
Lemma collect_meta_shape (row : Row) (i : Z) (meta : gmap string MetaVal) :
  collect_meta row i = Ok meta ->
  meta !! "cat"%string = Some (MInt i) /\
  (meta !! "vegan"%string = None \/ meta !! "vegetarian"%string = None).
Proof.
  unfold collect_meta. cbv zeta.
  destruct (store_kcal row _) as [m|x] eqn:Ekcal; cbn; [|discriminate].
  intros [= <-].
  assert (Hthrough : forall k : string,
            k <> "kcal"%string -> k <> "protein"%string -> k <> "carbs"%string ->
            k <> "fat"%string -> k <> "fiber"%string -> k <> "sodium"%string ->
            k <> "allergens"%string ->
            store_rounded row "sodium_100g" "sodium" 3
              (store_rounded row "fiber_100g" "fiber" 1
                 (store_rounded row "fat_100g" "fat" 1
                    (store_rounded row "carbohydrates_100g" "carbs" 1
                       (store_rounded row "proteins_100g" "protein" 1 m)))) !! k
            = store_labels row {["cat"%string := MInt i]} !! k).
  { intros k H1 H2 H3 H4 H5 H6 H7.
    rewrite !store_rounded_lookup_ne by assumption.
    rewrite (store_kcal_lookup_ne _ _ _ k Ekcal) by assumption.
    apply store_allergens_lookup_ne. assumption. }
  rewrite !Hthrough by discriminate.
  unfold store_labels. cbv zeta.
  destruct (str_in (u "vegan") _).
  - split; [reflexivity | right; reflexivity].
  - destruct (str_in (u "vegetarian") _).
    + split; [reflexivity | left; reflexivity].
    + split; [reflexivity | left; reflexivity].
Qed.

Lemma loop_body_meta_agrees (st st' : State) (row : Row) (e : Exit) :
  loop_body rules off_map st row = Ok (e, st') ->
  meta_agrees st -> meta_agrees st'.
Proof.
  intros Hbody Hinv.
  destruct (decide (e = Classified)) as [->|Hne].
  - apply loop_body_ok in Hbody. destruct Hbody as (i & _ & Hdb & _ & _ & _ & Hmeta).
    unfold meta_agrees in *.
    destruct (meta_db st) as [mdb|]; [|rewrite Hmeta; exact I].
    destruct Hmeta as (meta & Hcol & ->). destruct Hinv as [Hdom Hrec].
    rewrite Hdb. split; [rewrite !dom_insert_L, Hdom; reflexivity|].
    intros name m. rewrite !lookup_insert.
    destruct (decide (row_name row = name)) as [_|_].
    + intros [= <-]. apply collect_meta_shape in Hcol. destruct Hcol as [Hcat Hflag].
      split; [exists i; split; [reflexivity | exact Hcat] | exact Hflag].
    + apply Hrec.
  - destruct (loop_body_not_classified _ _ _ _ _ _ Hbody Hne) as [Hdb Hm].
    unfold meta_agrees. rewrite Hm, Hdb. exact Hinv.
Qed.

Lemma run_rows_meta_agrees (rows : list Row) (st st' : State) :
  run_rows rules off_map st rows = Ok st' -> meta_agrees st -> meta_agrees st'.
Proof.
  revert st; induction rows as [|row rows IH]; intros st Hrun Hinv.
  - cbn in Hrun. injection Hrun as <-. exact Hinv.
  - apply run_rows_cons_ok in Hrun. destruct Hrun as (e & st1 & Hbody & Hrun).
    apply (IH st1 Hrun). apply (loop_body_meta_agrees _ _ _ _ Hbody Hinv).
Qed.

(** X6. A finished run has a metadata mapping exactly when it was asked
    for one. The mapping then has the names of the category mapping, each
    record carries under [cat] the ordinal the category mapping holds for
    its name, and no record has both dietary flags. *)
Theorem metadata_agrees_with_categories (rows : list Row) (generate_meta : bool)
  (st : State) :
  build_database_in rules off_map rows generate_meta = Ok st ->
  match meta_db st with
  | None => generate_meta = false
  | Some mdb =>
      generate_meta = true /\
      dom mdb = dom (category_db st) /\
      forall name meta, mdb !! name = Some meta ->
        (exists i, category_db st !! name = Some i /\
                   meta !! "cat"%string = Some (MInt i)) /\
        (meta !! "vegan"%string = None \/ meta !! "vegetarian"%string = None)
  end.
Proof.
  unfold build_database_in. intros Hrun.
  pose proof (run_rows_meta_enabled _ _ _ Hrun) as Hen.
  assert (Hinv : meta_agrees st).
  { apply (run_rows_meta_agrees _ _ _ Hrun). unfold meta_agrees.
    destruct generate_meta; cbn; [|exact I].
    split; [rewrite !dom_empty_L; reflexivity|].
    intros name meta. rewrite lookup_empty. discriminate. }
  unfold meta_agrees in Hinv.
  destruct (meta_db st) as [mdb|].
  - split; [|exact Hinv]. destruct generate_meta; [reflexivity|].
    exfalso. assert (Hn : meta_db (initial_state false) = None) by reflexivity.
    apply Hen in Hn. discriminate.
  - destruct generate_meta; [|reflexivity].
    assert (Hn : meta_db (initial_state true) = None) by (apply Hen; reflexivity).
    discriminate.
Qed.

End RunFacts.

(** * Further properties of the tables and the matchers *)

(** ** First match *)

Lemma first_name_rule_first_match (rules : list (list str * str))
  (name cat : str) :
  first_name_rule rules name = Some cat <->
  exists pre kws post,
    rules = pre ++ (kws, cat) :: post /\
    rule_matches name (kws, cat) = true /\
    Forall (fun r => rule_matches name r = false) pre.
Proof.
  split.
  - induction rules as [|[kws c] rules IH]; cbn [first_name_rule]; [discriminate|].
    destruct (forallb (fun kw => str_in kw name) kws) eqn:E.
    + intros [= ->]. exists [], kws, rules. repeat split; [exact E | constructor].
    + intros Hr. destruct (IH Hr) as (pre & k & post & -> & Hm & HF).
      exists ((kws, c) :: pre), k, post. repeat split; [exact Hm|].
      constructor; [exact E | exact HF].
  - intros (pre & kws & post & -> & Hm & HF).
    rewrite first_name_rule_app.
    apply first_name_rule_none in HF. rewrite HF.
    cbn [first_name_rule]. unfold rule_matches in Hm. cbn [fst] in Hm.
    rewrite Hm. reflexivity.
Qed.

(** X7. Every name rule has one keyword, and none is empty.
    [classify_by_name] answers the target of the first rule of the table
    whose keyword occurs in the name, all rules before it having a keyword
    that does not; it answers no match exactly when no keyword of the
    table occurs in the name, as for the empty name. *)
Theorem classify_by_name_first_match :
  Forall (fun r => exists kw, fst r = [kw] /\ kw <> []) KEYWORD_RULES /\
  (forall name cat,
     classify_by_name name = Some cat <->
     exists pre kw post,
       KEYWORD_RULES = pre ++ ([kw], cat) :: post /\
       str_in kw name = true /\
       Forall (fun r => forall k, In k (fst r) -> str_in k name = false) pre) /\
  (forall name,
     classify_by_name name = None <->
     forall kw cat, In ([kw], cat) KEYWORD_RULES -> str_in kw name = false) /\
  classify_by_name [] = None.
Proof.
  assert (Hone : Forall (fun r => exists kw, fst r = [kw] /\ kw <> [])
                   KEYWORD_RULES).
  { apply Forall_forall. intros [kws cat] Hin.
    assert (Hb : forallb (fun r => match fst r with
                                   | [ _ :: _ ] => true
                                   | _ => false
                                   end) KEYWORD_RULES = true)
      by (vm_compute; reflexivity).
    rewrite forallb_forall in Hb. apply list_elem_of_In in Hin.
    specialize (Hb _ Hin). cbn [fst] in *.
    destruct kws as [|[|c kw] [|k2 kws]]; try discriminate.
    exists (c :: kw). split; [reflexivity | discriminate]. }
  assert (Hsingle : forall name r, In r KEYWORD_RULES ->
            (rule_matches name r = false <->
             forall k, In k (fst r) -> str_in k name = false)).
  { intros name r Hin. rewrite Forall_forall in Hone.
    apply list_elem_of_In in Hin. destruct (Hone _ Hin) as (kw & Hk & _).
    unfold rule_matches. rewrite Hk. cbn [forallb]. rewrite andb_true_r. split.
    - intros Hf k [<-|[]]. exact Hf.
    - intros Hall. apply Hall. left. reflexivity. }
  split; [exact Hone|]. split; [|split; [|vm_compute; reflexivity]].
  - intros name cat. unfold classify_by_name.
    rewrite first_name_rule_first_match. split.
    + intros (pre & kws & post & Heq & Hm & HF).
      assert (Hin : In (kws, cat) KEYWORD_RULES)
        by (rewrite Heq; apply in_or_app; right; left; reflexivity).
      rewrite Forall_forall in Hone. apply list_elem_of_In in Hin.
      destruct (Hone _ Hin) as (kw & Hk & _). cbn [fst] in Hk. subst kws.
      exists pre, kw, post. split; [exact Heq|]. split.
      * unfold rule_matches in Hm. cbn in Hm. rewrite andb_true_r in Hm. exact Hm.
      * apply Forall_forall. intros r Hr. apply Hsingle.
        -- rewrite Heq. apply in_or_app. left. apply list_elem_of_In. exact Hr.
        -- rewrite Forall_forall in HF. apply HF. exact Hr.
    + intros (pre & kw & post & Heq & Hm & HF).
      exists pre, [kw], post. split; [exact Heq|]. split.
      * unfold rule_matches. cbn. rewrite Hm. reflexivity.
      * apply Forall_forall. intros r Hr. apply Hsingle.
        -- rewrite Heq. apply in_or_app. left. apply list_elem_of_In. exact Hr.
        -- rewrite Forall_forall in HF. apply HF. exact Hr.
  - intros name. unfold classify_by_name. rewrite first_name_rule_none.
    rewrite Forall_forall. split.
    + intros Hall kw cat Hin. apply list_elem_of_In in Hin.
      specialize (Hall _ Hin). unfold rule_matches in Hall. cbn in Hall.
      rewrite andb_true_r in Hall. exact Hall.
    + intros Hall r Hr. rewrite Forall_forall in Hone.
      destruct (Hone _ Hr) as (kw & Hk & _).
      destruct r as [kws cat]. cbn [fst] in Hk. subst kws.
      unfold rule_matches. cbn. rewrite andb_true_r.
      apply (Hall kw cat). apply list_elem_of_In. exact Hr.
Qed.

(** ** Shadowed rules *)

Lemma shadows_sound (early late : list str * str) (name : str) :
  shadows early late = true ->
  rule_matches name late = true -> rule_matches name early = true.
Proof.
  unfold shadows, rule_matches. intros Hs Hm.
  rewrite forallb_forall in *. intros k Hk.
  specialize (Hs k Hk). apply existsb_exists in Hs.
  destruct Hs as (kw & Hkw & Hin).
  apply (str_in_trans k kw name Hin). apply Hm. exact Hkw.
Qed.

Lemma strike_shadowed_same (seen rules : list (list str * str)) (name : str) :
  Forall (fun r => rule_matches name r = false) seen ->
  first_name_rule (strike_shadowed seen rules) name = first_name_rule rules name.
Proof.
  revert seen; induction rules as [|[kws cat] rules IH]; intros seen Hseen;
    [reflexivity|].
  cbn [strike_shadowed first_name_rule].
  destruct (existsb (fun e => shadows e (kws, cat)) seen) eqn:Esh.
  - apply existsb_exists in Esh. destruct Esh as (e & He & Hs).
    assert (Hno : rule_matches name (kws, cat) = false).
    { destruct (rule_matches name (kws, cat)) eqn:Em; [|reflexivity].
      pose proof (shadows_sound _ _ _ Hs Em) as Hearly.
      rewrite Forall_forall in Hseen. apply list_elem_of_In in He.
      rewrite (Hseen _ He) in Hearly. discriminate. }
    unfold rule_matches in Hno. cbn [fst] in Hno. rewrite Hno.
    apply IH. constructor; [exact Hno | exact Hseen].
  - cbn [first_name_rule].
    destruct (forallb (fun kw => str_in kw name) kws) eqn:Em; [reflexivity|].
    apply IH. constructor; [exact Em | exact Hseen].
Qed.

(** X8. Nineteen name rules stand behind a rule whose keyword occurs
    inside their own, so that they never decide a name: the table without
    them classifies every name alike. Among them are the rules for olive
    oil (behind olive), steak (behind tea), chocolate (behind cola) and
    breadcrumb (behind rum), whose names get the target of the earlier
    rule. *)
Theorem shadowed_rules_never_decide :
  shadowed_rules [] KEYWORD_RULES =
    [ ([u "vegetable stock"], u "pantry"); ([u "chicken stock"], u "pantry");
      ([u "beef stock"], u "pantry"); ([u "hoisin"], u "condiment");
      ([u "pesto"], u "condiment"); ([u "miso"], u "condiment");
      ([u "tahini"], u "condiment"); ([u "olive oil"], u "oil");
      ([u "ginger ale"], u "pop"); ([u "stock"], u "beverage");
      ([u "steak"], u "meat"); ([u "guanciale"], u "meat");
      ([u "beef ribs"], u "meat"); ([u "pork ribs"], u "meat");
      ([u "breadcrumb"], u "grain"); ([u "lentil"], u "legume");
      ([u "chickpea"], u "legume"); ([u "five spice"], u "spice");
      ([u "chocolate"], u "sugar") ] /\
  length (strike_shadowed [] KEYWORD_RULES) = 483%nat /\
  (forall name,
     classify_by_name name = first_name_rule (strike_shadowed [] KEYWORD_RULES) name) /\
  classify_by_name (u "steak") = Some (u "beverage") /\
  classify_by_name (u "chocolate") = Some (u "pop") /\
  classify_by_name (u "breadcrumb") = Some (u "alcohol").
Proof.
  split; [vm_compute; reflexivity|].
  split; [vm_compute; reflexivity|].
  split; [|repeat split; vm_compute; reflexivity].
  intros name. unfold classify_by_name. symmetry.
  apply strike_shadowed_same. constructor.
Qed.

(** ** Longer names *)

Section Containment.
Context `{PyBuiltins}.

Lemma is_culinary_ingredient_false (name off_cat tags : str) :
  is_culinary_ingredient name off_cat tags = false <->
  (60 <? length name)%nat = true \/ re_search_digits 5 name = true \/
  existsb (fun w => str_in w name) skip_words = true.
Proof.
  unfold is_culinary_ingredient.
  destruct (60 <? length name)%nat; [split; auto|].
  destruct (re_search_digits 5 name); [split; auto|].
  destruct (existsb _ skip_words); [split; auto|].
  split; [discriminate | intros [Hx | [Hx | Hx]]; discriminate].
Qed.

(** X9. Text added around a name never rescues it and never unclassifies
    it: when a name occurs inside a longer one, the ingredient filter
    rejects the longer name if it rejects the shorter, and the name rules
    classify the longer name if they classify the shorter (not always to
    the same category). *)
Theorem longer_names_stay_rejected_and_classified (name name' : str) :
  str_in name name' = true ->
  (forall off_cat tags off_cat' tags',
     is_culinary_ingredient name off_cat tags = false ->
     is_culinary_ingredient name' off_cat' tags' = false) /\
  (forall rules cat,
     first_name_rule rules name = Some cat ->
     exists cat', first_name_rule rules name' = Some cat').
Proof.
  intros Hin. pose proof Hin as Hsplit. apply str_in_spec in Hsplit.
  destruct Hsplit as (a & b & Hname'). split.
  - intros off_cat tags off_cat' tags'. rewrite !is_culinary_ingredient_false.
    intros [Hlen | [Hrun | Hdeny]].
    + left. apply Nat.ltb_lt in Hlen. apply Nat.ltb_lt.
      rewrite Hname', !length_app. lia.
    + right. left. apply re_search_digits_spec in Hrun.
      destruct Hrun as (x & run & y & -> & Hn & HF).
      apply re_search_digits_spec. exists (a ++ x), run, (y ++ b).
      split; [|split; assumption].
      rewrite Hname', <- !app_assoc. reflexivity.
    + right. right. apply existsb_exists in Hdeny.
      destruct Hdeny as (w & Hw & Hwin). apply existsb_exists.
      exists w. split; [exact Hw | apply (str_in_trans w name name' Hwin Hin)].
  - intros rules cat Hr. apply first_name_rule_some in Hr.
    destruct Hr as (kws & Hrule & Hm).
    destruct (first_name_rule rules name') as [cat'|] eqn:E; [exists cat'; reflexivity|].
    exfalso. apply first_name_rule_none in E. rewrite Forall_forall in E.
    apply list_elem_of_In in Hrule. specialize (E _ Hrule).
    unfold rule_matches in *. cbn [fst] in *.
    assert (Hm' : forallb (fun kw => str_in kw name') kws = true).
    { rewrite forallb_forall in *. intros kw Hkw.
      apply (str_in_trans kw name name' (Hm kw Hkw) Hin). }
    congruence.
Qed.

End Containment.

(** Rum is classified, so serum is; pizza is rejected, so is a pizza
    stone. *)
Lemma longer_names_stay_rejected_and_classified_witness :
  (exists cat', classify_by_name (u "serum") = Some cat') /\
  is_culinary_ingredient (H := ascii_builtins) (u "pizza stone") [] [] = false.
Proof.
  split.
  - assert (Hin : str_in (u "rum") (u "serum") = true) by (vm_compute; reflexivity).
    destruct (@longer_names_stay_rejected_and_classified ascii_builtins _ _ Hin)
      as [_ Hcl].
    apply (Hcl KEYWORD_RULES (u "alcohol")). vm_compute. reflexivity.
  - assert (Hin : str_in (u "pizza") (u "pizza stone") = true)
      by (vm_compute; reflexivity).
    destruct (@longer_names_stay_rejected_and_classified ascii_builtins _ _ Hin)
      as [Hrej _].
    apply (Hrej [] [] [] []). vm_compute. reflexivity.
Defined.

(** ** The registry *)

Lemma fold_insert_lookup (l : list (Z * list N)) (m : gmap (list N) Z)
  (c : str) (z : Z) :
  fold_left (fun m '(i, cat) => <[cat := i]> m) l m !! c = Some z ->
  In (z, c) l \/ m !! c = Some z.
Proof.
  revert m; induction l as [|[i cat] l IH]; intros m; cbn [fold_left].
  - intros Hm. right. exact Hm.
  - intros Hl. destruct (IH _ Hl) as [Hin | Hm].
    + left. right. exact Hin.
    + rewrite lookup_insert in Hm.
      destruct (decide (cat = c)) as [->|Hne].
      * injection Hm as ->. left. left. reflexivity.
      * right. exact Hm.
Qed.

Transparent CAT.

Lemma CAT_lookup_inv (cat : str) (z : Z) :
  CAT !! cat = Some z ->
  0 <= z < 24 /\ nth_error CATEGORIES (Z.to_nat z) = Some cat.
Proof.
  intros Hz. unfold CAT in Hz. apply fold_insert_lookup in Hz.
  destruct Hz as [Hin | Hempty]; [|rewrite lookup_empty in Hempty; discriminate].
  assert (Hall : Forall (fun p => 0 <= fst p < 24 /\
                                  nth_error CATEGORIES (Z.to_nat (fst p)) = Some (snd p))
                   (enumerate CATEGORIES))
    by (apply (bool_decide_unpack _); vm_compute; exact I).
  rewrite Forall_forall in Hall. apply list_elem_of_In in Hin.
  apply (Hall _ Hin).
Qed.

Opaque CAT.

(** X10. The registry has 24 distinct names, unknown at ordinal 22. [CAT]
    maps a name to its position in [CATEGORIES] and nothing else, so
    looking a name up and indexing the list are inverse to each other, and
    a lookup with the unknown default answers the unknown ordinal exactly
    for the name unknown and for the names outside the registry. *)
Theorem registry_round_trip :
  NoDup CATEGORIES /\ length CATEGORIES = 24%nat /\ UNKNOWN = 22 /\
  (forall i cat,
     nth_error CATEGORIES i = Some cat <-> CAT !! cat = Some (Z.of_nat i)) /\
  (forall cat z, CAT !! cat = Some z ->
     0 <= z < 24 /\ nth_error CATEGORIES (Z.to_nat z) = Some cat) /\
  (forall cat,
     CAT_get cat UNKNOWN = UNKNOWN <-> cat = u "unknown" \/ ~ In cat CATEGORIES).
Proof.
  split; [apply (bool_decide_unpack _); vm_compute; exact I|].
  split; [reflexivity|]. split; [exact UNKNOWN_eq|].
  split; [|split; [exact CAT_lookup_inv|]].
  - intros i cat. split; [apply CAT_lookup_position|].
    intros Hz. apply CAT_lookup_inv in Hz. destruct Hz as [_ Hn].
    replace (Z.to_nat (Z.of_nat i)) with i in Hn by lia. exact Hn.
  - intros cat. unfold CAT_get.
    destruct (CAT !! cat) as [z|] eqn:Ez;
      [change (default UNKNOWN (Some z)) with z
      |change (default UNKNOWN (@None Z)) with UNKNOWN].
    + pose proof (CAT_lookup_inv _ _ Ez) as [Hrange Hn]. split.
      * intros ->. left. rewrite UNKNOWN_eq in Hn.
        change (nth_error CATEGORIES (Z.to_nat 22)) with (Some (u "unknown")) in Hn.
        congruence.
      * intros [-> | Hout].
        -- assert (E : CAT !! u "unknown" = Some 22) by (vm_compute; reflexivity).
           rewrite UNKNOWN_eq. congruence.
        -- exfalso. apply Hout. apply (nth_error_In _ _ Hn).
    + split; [|reflexivity]. intros _. right. intros Hin.
      apply In_nth_error in Hin. destruct Hin as [i Hi].
      apply CAT_lookup_position in Hi. congruence.
Qed.

(** ** The distribution report *)

Lemma counts_over_empty (names : list (list N)) : counts_over names ∅ = 0.
Proof.
  unfold counts_over. induction names as [|c names IH]; [reflexivity|].
  cbn [map fold_right]. rewrite lookup_empty, IH. reflexivity.
Qed.

Lemma counts_over_insert_out (names : list (list N)) (dist : gmap (list N) Z)
  (c : str) (v : Z) :
  ~ In c names -> counts_over names (<[c := v]> dist) = counts_over names dist.
Proof.
  induction names as [|x names IH]; intros Hout; [reflexivity|].
  unfold counts_over in *. cbn [map fold_right].
  rewrite lookup_insert_ne by (intros ->; apply Hout; left; reflexivity).
  rewrite IH by (intros Hin; apply Hout; right; exact Hin). reflexivity.
Qed.

Lemma counts_over_insert_in (names : list (list N)) (dist : gmap (list N) Z)
  (c : str) (v : Z) :
  NoDup names -> In c names ->
  counts_over names (<[c := v]> dist)
  = counts_over names dist + v - default 0 (dist !! c).
Proof.
  induction names as [|x names IH]; intros Hnd Hin; [destruct Hin|].
  apply NoDup_cons in Hnd. destruct Hnd as [Hx Hnd].
  unfold counts_over in *. cbn [map fold_right].
  destruct (decide (x = c)) as [->|Hne].
  - rewrite lookup_insert_eq.
    fold (counts_over names (<[c := v]> dist)). fold (counts_over names dist).
    rewrite counts_over_insert_out
      by (intros Hc; apply Hx; apply list_elem_of_In; exact Hc).
    change (default 0 (Some v)) with v. lia.
  - rewrite lookup_insert_ne by congruence.
    destruct Hin as [Heq | Hin]; [contradiction|].
    rewrite (IH Hnd Hin). lia.
Qed.

Lemma sum_counts_printed (dist : gmap (list N) Z) :
  (forall c k, dist !! c = Some k -> 0 < k) ->
  sum_counts (printed_distribution dist) = counts_over CATEGORIES dist.
Proof.
  intros Hpos. unfold sum_counts, printed_distribution, counts_over.
  induction CATEGORIES as [|c names IH]; [reflexivity|].
  cbn [map List.filter snd fold_right].
  destruct (0 <? default 0 (dist !! c)) eqn:E.
  - cbn [map snd fold_right]. rewrite IH. reflexivity.
  - rewrite IH. apply Z.ltb_ge in E.
    destruct (dist !! c) as [k|] eqn:Ek; cbn in *; [|lia].
    specialize (Hpos c k Ek). lia.
Qed.

Lemma count_category_in_range (dist : gmap (list N) Z) (idx : Z) :
  0 <= idx < 24 -> idx <> 22 -> sound_distribution dist ->
  exists dist',
    count_category dist idx = Some dist' /\ sound_distribution dist' /\
    counts_over CATEGORIES dist' = counts_over CATEGORIES dist + 1.
Proof.
  intros Hrange Hne [Hunk Hsound]. unfold count_category, py_getitem.
  change (Z.of_nat (length CATEGORIES)) with 24.
  replace (idx <? 24) with true by (symmetry; apply Z.ltb_lt; lia).
  replace (0 <=? idx) with true by (symmetry; apply Z.leb_le; lia).
  destruct (nth_error CATEGORIES (Z.to_nat idx)) as [c|] eqn:Ec.
  2: { apply nth_error_None in Ec. change (length CATEGORIES) with 24%nat in Ec. lia. }
  assert (Hin : In c CATEGORIES) by (apply (nth_error_In _ _ Ec)).
  assert (Hc : c <> u "unknown").
  { intros ->. apply CAT_lookup_position in Ec.
    assert (E : CAT !! u "unknown" = Some 22) by (vm_compute; reflexivity).
    rewrite E in Ec. injection Ec as Ec. lia. }
  eexists. split; [reflexivity|]. split; [split|].
  - rewrite lookup_insert_ne by congruence. exact Hunk.
  - intros x k. rewrite lookup_insert.
    destruct (decide (c = x)) as [<-|_]; [|apply Hsound].
    intros [= <-]. split; [exact Hin|].
    destruct (dist !! c) as [k0|] eqn:Ek; cbn; [|lia].
    destruct (Hsound c k0 Ek). lia.
  - rewrite counts_over_insert_in; [lia | | exact Hin].
    apply (bool_decide_unpack _). vm_compute. exact I.
Qed.

Lemma category_distribution_in_range (values : list Z) (dist : gmap (list N) Z) :
  Forall (fun idx => 0 <= idx < 24 /\ idx <> 22) values ->
  sound_distribution dist ->
  exists dist',
    category_distribution values dist = Some dist' /\ sound_distribution dist' /\
    counts_over CATEGORIES dist'
    = counts_over CATEGORIES dist + Z.of_nat (length values).
Proof.
  revert dist; induction values as [|idx values IH]; intros dist HF Hsound.
  - exists dist. split; [reflexivity|]. split; [exact Hsound|]. cbn [length]. lia.
  - apply Forall_cons in HF. destruct HF as [[Hrange Hne] HF].
    destruct (count_category_in_range dist idx Hrange Hne Hsound)
      as (d1 & Hcount & Hsound1 & Hsum1).
    destruct (IH d1 HF Hsound1) as (d2 & Hrest & Hsound2 & Hsum2).
    exists d2. cbn [category_distribution]. rewrite Hcount.
    split; [exact Hrest|]. split; [exact Hsound2|].
    rewrite Hsum2, Hsum1. cbn [length]. lia.
Qed.

Section Distribution.
Context `{PyBuiltins}.
Variable rules : list (list str * str).
Variable off_map : list (str * option str).

Lemma run_values_in_range (rows : list Row) (generate_meta : bool) (st : State)
  (name : str) (i : Z) :
  build_database_in rules off_map rows generate_meta = Ok st ->
  category_db st !! name = Some i -> 0 <= i < 24 /\ i <> 22.
Proof.
  unfold build_database_in. intros Hrun Hlook.
  destruct (run_rows_entries _ _ _ _ _ _ _ Hrun Hlook)
    as [Hinit | (row & _ & _ & Hcl)].
  { cbn in Hinit. rewrite lookup_empty in Hinit. discriminate. }
  destruct Hcl as (_ & _ & cat & _ & Hi & Hne).
  rewrite UNKNOWN_eq in Hne. split; [|exact Hne].
  unfold CAT_get in Hi. destruct (CAT !! cat) as [z|] eqn:Ez.
  - change (default UNKNOWN (Some z)) with z in Hi. subst z.
    apply (CAT_lookup_inv _ _ Ez).
  - change (default UNKNOWN (@None Z)) with UNKNOWN in Hi.
    rewrite UNKNOWN_eq in Hi. congruence.
Qed.

(** X11. On the category mapping of a finished run the distribution loop
    raises no [IndexError] and never counts under unknown, in whatever
    order the values come: every count is positive and belongs to a
    registered category, and the counts of the report add up to the number
    of entries of the mapping. *)
Theorem distribution_accounts_for_entries (rows : list Row)
  (generate_meta : bool) (st : State) (values : list Z) :
  build_database_in rules off_map rows generate_meta = Ok st ->
  Permutation values (map snd (map_to_list (category_db st))) ->
  exists dist,
    category_distribution values ∅ = Some dist /\
    dist !! u "unknown" = None /\
    (forall c k, dist !! c = Some k -> In c CATEGORIES /\ 0 < k) /\
    sum_counts (printed_distribution dist) = Z.of_nat (size (category_db st)).
Proof.
  intros Hrun Hperm.
  assert (HF : Forall (fun idx => 0 <= idx < 24 /\ idx <> 22) values).
  { apply Forall_forall. intros idx Hidx.
    apply list_elem_of_In in Hidx.
    apply (Permutation_in _ Hperm) in Hidx.
    apply in_map_iff in Hidx. destruct Hidx as ([name i] & Heq & Hin).
    cbn in Heq. subst i. apply list_elem_of_In in Hin.
    apply elem_of_map_to_list in Hin.
    apply (run_values_in_range _ _ _ _ _ Hrun Hin). }
  assert (Hempty : sound_distribution ∅).
  { split; [apply lookup_empty|]. intros c k. rewrite lookup_empty. discriminate. }
  destruct (category_distribution_in_range values ∅ HF Hempty)
    as (dist & Hdist & [Hunk Hsound] & Hsum).
  exists dist. split; [exact Hdist|]. split; [exact Hunk|]. split; [exact Hsound|].
  rewrite sum_counts_printed by (intros c k Hk; apply (Hsound c k Hk)).
  rewrite Hsum, (Permutation_length Hperm), length_map, length_map_to_list.
  rewrite counts_over_empty. lia.
Qed.

End Distribution.

(** ** The records of the metadata mapping *)

Lemma fold_store_entry_lookup {V : Type} (es : list (option (list N * V)))
  (m : gmap (list N) V) (k : list N) (v : V) :
  fold_left store_entry es m !! k = Some v ->
  m !! k = Some v \/ In (Some (k, v)) es.
Proof.
  revert m; induction es as [|e es IH]; intros m Hl; [left; exact Hl|].
  cbn [fold_left] in Hl.
  destruct (IH _ Hl) as [Hm | Hin]; [|right; right; exact Hin].
  destruct e as [[k' v']|]; cbn [store_entry] in Hm; [|left; exact Hm].
  destruct (decide (k' = k)) as [->|Hne].
  - rewrite lookup_insert_eq in Hm. injection Hm as ->. right; left; reflexivity.
  - rewrite lookup_insert_ne in Hm by exact Hne. left; exact Hm.
Qed.

Section Records.
Context `{PyBuiltins}.
Variable rules : list (list str * str).
Variable off_map : list (str * option str).

Lemma store_labels_field (row : Row) (meta : gmap string MetaVal)
  (k : string) (v : MetaVal) :
  store_labels row meta !! k = Some v ->
  ((k = "vegan"%string \/ k = "vegetarian"%string) /\ v = MBool true) \/
  meta !! k = Some v.
Proof.
  unfold store_labels. cbv zeta.
  destruct (str_in (u "vegan") _).
  - destruct (decide (k = "vegan"%string)) as [->|Hne].
    + rewrite lookup_insert_eq. intros [= <-]. left. split; [left|]; reflexivity.
    + rewrite lookup_insert_ne by congruence. right; assumption.
  - destruct (str_in (u "vegetarian") _); [|right; assumption].
    destruct (decide (k = "vegetarian"%string)) as [->|Hne].
    + rewrite lookup_insert_eq. intros [= <-]. left. split; [right|]; reflexivity.
    + rewrite lookup_insert_ne by congruence. right; assumption.
Qed.

Lemma store_allergens_field (row : Row) (meta : gmap string MetaVal)
  (k : string) (v : MetaVal) :
  store_allergens row meta !! k = Some v ->
  (k = "allergens"%string /\ exists s, v = MStr s /\ s <> []) \/
  meta !! k = Some v.
Proof.
  unfold store_allergens. cbv zeta.
  destruct (str_strip _) as [|c s]; [right; assumption|].
  destruct (decide (k = "allergens"%string)) as [->|Hne].
  - rewrite lookup_insert_eq. intros [= <-]. left. split; [reflexivity|].
    exists (c :: s). split; [reflexivity | discriminate].
  - rewrite lookup_insert_ne by congruence. right; assumption.
Qed.

Lemma store_kcal_field (row : Row) (meta meta' : gmap string MetaVal)
  (k : string) (v : MetaVal) :
  store_kcal row meta = Ok meta' -> meta' !! k = Some v ->
  (k = "kcal"%string /\ exists n, v = MInt n) \/ meta !! k = Some v.
Proof.
  unfold store_kcal. intros Hs Hl.
  destruct (row_get row "energy-kcal_100g") as [[|c s]|];
    try (injection Hs as <-; right; exact Hl).
  destruct (float_of_str (c :: s)) as [x|];
    [|injection Hs as <-; right; exact Hl].
  destruct (round_int x) as [n| |];
    [|injection Hs as <-; right; exact Hl | discriminate].
  injection Hs as <-.
  destruct (decide (k = "kcal"%string)) as [->|Hne].
  - rewrite lookup_insert_eq in Hl. injection Hl as <-. left.
    split; [reflexivity | exists n; reflexivity].
  - rewrite lookup_insert_ne in Hl by congruence. right; exact Hl.
Qed.

Lemma store_rounded_field (row : Row) (column key : string) (ndigits : nat)
  (meta : gmap string MetaVal) (k : string) (v : MetaVal) :
  store_rounded row column key ndigits meta !! k = Some v ->
  (k = key /\ exists x, v = MFloat x) \/ meta !! k = Some v.
Proof.
  unfold store_rounded.
  destruct (row_get row column) as [[|c s]|]; try (right; assumption).
  destruct (float_of_str (c :: s)) as [x|]; [|right; assumption].
  destruct (decide (k = key)) as [->|Hne].
  - rewrite lookup_insert_eq. intros [= <-]. left.
    split; [reflexivity | eexists; reflexivity].
  - rewrite lookup_insert_ne by congruence. right; assumption.
Qed.

(** The fields of the record of one row. *)
Lemma collect_meta_fields (row : Row) (i : Z) (meta : gmap string MetaVal)
  (k : string) (v : MetaVal) :
  collect_meta row i = Ok meta -> meta !! k = Some v ->
  match v with
  | MInt n => (k = "cat"%string /\ n = i) \/ k = "kcal"%string
  | MBool b => b = true /\ (k = "vegan"%string \/ k = "vegetarian"%string)
  | MStr s => k = "allergens"%string /\ s <> []
  | MFloat _ => In k ["protein"; "carbs"; "fat"; "fiber"; "sodium"]%string
  end.
Proof.
  unfold collect_meta. cbv zeta.
  destruct (store_kcal row _) as [m|x] eqn:Ekcal; cbn; [|discriminate].
  intros [= <-] Hl.
  apply store_rounded_field in Hl as [[-> [x ->]] | Hl];
    [cbn; tauto|].
  apply store_rounded_field in Hl as [[-> [x ->]] | Hl];
    [cbn; tauto|].
  apply store_rounded_field in Hl as [[-> [x ->]] | Hl];
    [cbn; tauto|].
  apply store_rounded_field in Hl as [[-> [x ->]] | Hl];
    [cbn; tauto|].
  apply store_rounded_field in Hl as [[-> [x ->]] | Hl];
    [cbn; tauto|].
  apply (store_kcal_field _ _ _ _ _ Ekcal) in Hl as [[-> [n ->]] | Hl];
    [right; reflexivity|].
  apply store_allergens_field in Hl as [[-> (s & -> & Hs)] | Hl];
    [split; [reflexivity | exact Hs]|].
  apply store_labels_field in Hl as [[Hk ->] | Hl];
    [split; [reflexivity | exact Hk]|].
  destruct (decide (k = "cat"%string)) as [->|Hne].
  - rewrite lookup_singleton_eq in Hl. injection Hl as <-.
    left. split; reflexivity.
  - rewrite lookup_singleton_ne in Hl by congruence. discriminate.
Qed.

(** X12. Every record of the metadata mapping of a finished run is well
    formed: under [cat] it holds an ordinal of the registry other than
    unknown, under [kcal] an integer, under [vegan] and [vegetarian] only
    the flag [True], under [allergens] a text that is not empty, under the
    five nutrient keys floats, and it has no other key. *)
Theorem metadata_records_well_formed (rows : list Row) (generate_meta : bool)
  (st : State) (mdb : gmap (list N) (gmap string MetaVal)) (name : str)
  (meta : gmap string MetaVal) :
  build_database_in rules off_map rows generate_meta = Ok st ->
  meta_db st = Some mdb -> mdb !! name = Some meta ->
  is_Some (meta !! "cat"%string) /\
  forall k v, meta !! k = Some v -> meta_field k v.
Proof.
  intros Hrun Hdb Hname.
  pose proof (run_rows_meta_agrees _ _ _ _ _ Hrun) as Hagree.
  unfold meta_agrees in Hagree. rewrite Hdb in Hagree.
  destruct Hagree as [_ Hagree].
  { cbn. destruct generate_meta; cbn; [|exact I].
    split; [rewrite !dom_empty_L; reflexivity|].
    intros n m. rewrite lookup_empty. discriminate. }
  destruct (Hagree _ _ Hname) as [(i & Hi & Hcat) _].
  split; [eexists; exact Hcat|].
  intros k v Hl.
  destruct (run_rows_stores _ _ _ _ _ Hrun) as [_ Hstores].
  rewrite Hdb in Hstores.
  destruct (meta_db (initial_state generate_meta)) as [m0|] eqn:E0;
    [|discriminate].
  assert (m0 = ∅) as -> by (destruct generate_meta; cbn in E0; congruence).
  cbn [option_map] in Hstores. injection Hstores as ->.
  apply fold_store_entry_lookup in Hname as [Hname | Hin];
    [rewrite lookup_empty in Hname; discriminate|].
  apply in_map_iff in Hin as (row & Hentry & _).
  unfold row_meta_entry in Hentry.
  destruct (row_entry rules off_map row) as [[n j]|]; [|discriminate].
  destruct (collect_meta row j) as [meta'|] eqn:Ecol; [|discriminate].
  injection Hentry as -> ->.
  pose proof (collect_meta_fields _ _ _ _ _ Ecol Hl) as Hfield.
  pose proof (collect_meta_fields _ _ _ _ _ Ecol Hcat) as Hj.
  cbn in Hj. destruct Hj as [[_ Hj] | Hj]; [|discriminate].
  unfold meta_field. destruct v as [n'| | |]; try exact Hfield.
  destruct Hfield as [[-> ->] | ->]; [|right; reflexivity].
  left. split; [reflexivity|].
  destruct (run_values_in_range rules off_map _ _ _ _ _ Hrun Hi) as [Hr Hne].
  subst j. rewrite UNKNOWN_eq. split; assumption.
Qed.

End Records.

(** ** Values that are not numbers, on the binary64 builtins *)

Lemma store_rounded_stores `{PyBuiltins} (row : Row) (column key : string)
  (ndigits : nat) (meta : gmap string MetaVal) (s : str) (x : pyfloat) :
  row_get row column = Some s -> float_of_str s = Some x -> s <> [] ->
  store_rounded row column key ndigits meta !! key =
    Some (MFloat (round_ndigits x ndigits)).
Proof.
  intros Hget Hx Hs. unfold store_rounded. rewrite Hget.
  destruct s as [|c s]; [congruence|]. rewrite Hx. apply lookup_insert_eq.
Qed.

(** X13. Only the energy field is guarded against values that are not
    numbers. A protein, carbohydrate, fat, fiber or sodium field that reads
    as NaN or as an infinity is stored in the record as it is, [round] with
    digits giving it back; an energy field that reads as NaN is left out of
    the record, the [ValueError] of [round] being absorbed. *)
Theorem nonfinite_nutrients_are_stored (row : Row) (i : Z)
  (meta : gmap string MetaVal) :
  collect_meta (H := ascii_builtins) row i = Ok meta ->
  (forall column key ndigits s x,
     In (column, key, ndigits) nutrient_columns ->
     row_get row column = Some s -> ascii_float s = Some x ->
     x = S754_nan \/ (exists neg, x = S754_infinity neg) ->
     meta !! key = Some (MFloat (H := ascii_builtins) x)) /\
  (forall s,
     row_get row "energy-kcal_100g" = Some s -> ascii_float s = Some S754_nan ->
     meta !! "kcal"%string = None).
Proof.
  unfold collect_meta. cbv zeta.
  destruct (store_kcal row _) as [m|e] eqn:Ekcal; cbn; [|discriminate].
  intros [= <-]. split.
  - intros column key ndigits s x Hin Hget Hx Hnf.
    assert (Hs : s <> []) by (intros ->; vm_compute in Hx; discriminate).
    assert (Hround : round_ndigits (PyBuiltins := ascii_builtins) x ndigits = x)
      by (destruct Hnf as [-> | [neg ->]]; reflexivity).
    pose proof (fun meta0 =>
      store_rounded_stores (H := ascii_builtins) row column key ndigits meta0
        s x Hget Hx Hs) as Hstore.
    rewrite Hround in Hstore.
    cbn [nutrient_columns In] in Hin.
    destruct Hin as [Heq | [Heq | [Heq | [Heq | [Heq | []]]]]];
      injection Heq as <- <- <-;
      rewrite ?store_rounded_lookup_ne by discriminate; apply Hstore.
  - intros s Hget Hx.
    rewrite !store_rounded_lookup_ne by discriminate.
    unfold store_kcal in Ekcal. rewrite Hget in Ekcal.
    destruct s as [|c s]; [vm_compute in Hx; discriminate|].
    change (float_of_str (PyBuiltins := ascii_builtins) (c :: s))
      with (ascii_float (c :: s)) in Ekcal.
    rewrite Hx in Ekcal. cbn in Ekcal. injection Ekcal as <-.
    rewrite store_allergens_lookup_ne by discriminate.
    unfold store_labels. cbv zeta.
    destruct (str_in (u "vegan") _); [reflexivity|].
    destruct (str_in (u "vegetarian") _); reflexivity.
Qed.

(** ** The rule table of the category field *)


(** ** The properties of the run on the sample input *)


Lemma run_accounting_witness :
  exists st,
    build_database (H := ascii_builtins) sample_rows false = Ok st /\
    (skipped st + classified st + unclassified st = 6)%N /\
    classified st = 3%N /\ (N.of_nat (size (category_db st)) <= 3)%N.
Proof.
  exists (final_state (build_database (H := ascii_builtins) sample_rows false)).
  assert (Hrun : build_database_in (H := ascii_builtins) KEYWORD_RULES
                   OFF_CATEGORY_MAP sample_rows false
                 = Ok (final_state (build_database (H := ascii_builtins)
                                      sample_rows false))) by reflexivity.
  split; [exact Hrun|].
  destruct (@run_accounting ascii_builtins KEYWORD_RULES OFF_CATEGORY_MAP
              sample_rows false _ Hrun) as (Hsum & Hcl & Hsize & _).
  split; [exact Hsum|]. split; [exact Hcl|]. rewrite Hcl in Hsize. exact Hsize.
Defined.

Lemma output_entries_come_from_rows_witness :
  exists st,
    build_database (H := ascii_builtins) sample_rows false = Ok st /\
    is_Some (category_db st !! u "zzz").
Proof.
  exists (final_state (build_database (H := ascii_builtins) sample_rows false)).
  assert (Hrun : build_database_in (H := ascii_builtins) KEYWORD_RULES
                   OFF_CATEGORY_MAP sample_rows false
                 = Ok (final_state (build_database (H := ascii_builtins)
                                      sample_rows false))) by reflexivity.
  split; [exact Hrun|].
  destruct (@output_entries_come_from_rows ascii_builtins KEYWORD_RULES
              OFF_CATEGORY_MAP sample_rows false _ Hrun) as [_ Hkeys].
  change (u "zzz")
    with (row_name (H := ascii_builtins)
            {["product_name" := Some (u "Zzz");
              "main_category_en" := Some (u "Cheeses")]}).
  apply (Hkeys {["product_name" := Some (u "Zzz");
                 "main_category_en" := Some (u "Cheeses")]} 5).
  - right. right. left. reflexivity.
  - split; [vm_compute; lia|]. split; [vm_compute; reflexivity|].
    exists (u "cheese"). split; [vm_compute; reflexivity|].
    split; [vm_compute; reflexivity | vm_compute; discriminate].
Defined.

Lemma run_of_concatenation_witness :
  exists st st1 st2,
    build_database (H := ascii_builtins) sample_rows true = Ok st /\
    build_database (H := ascii_builtins) (firstn 3 sample_rows) true = Ok st1 /\
    build_database (H := ascii_builtins) (skipn 3 sample_rows) true = Ok st2 /\
    category_db st = category_db st2 ∪ category_db st1 /\
    classified st = (classified st1 + classified st2)%N.
Proof.
  exists (final_state (build_database (H := ascii_builtins) sample_rows true)).
  assert (Hrun : build_database_in (H := ascii_builtins) KEYWORD_RULES
                   OFF_CATEGORY_MAP (firstn 3 sample_rows ++ skipn 3 sample_rows) true
                 = Ok (final_state (build_database (H := ascii_builtins)
                                      sample_rows true)))
    by (vm_cast_no_check
          (eq_refl (build_database (H := ascii_builtins) sample_rows true))).
  destruct (@run_of_concatenation ascii_builtins KEYWORD_RULES OFF_CATEGORY_MAP
              _ _ true _ Hrun) as (st1 & st2 & H1 & H2 & Hdb & _ & _ & Hcl & _).
  exists st1, st2. split; [exact Hrun|]. split; [exact H1|]. split; [exact H2|].
  split; [exact Hdb | exact Hcl].
Defined.

Lemma metadata_agrees_with_categories_witness :
  exists st mdb,
    build_database (H := ascii_builtins) sample_rows true = Ok st /\
    meta_db st = Some mdb /\ dom mdb = dom (category_db st).
Proof.
  exists (final_state (build_database (H := ascii_builtins) sample_rows true)).
  assert (Hrun : build_database_in (H := ascii_builtins) KEYWORD_RULES
                   OFF_CATEGORY_MAP sample_rows true
                 = Ok (final_state (build_database (H := ascii_builtins)
                                      sample_rows true)))
    by (vm_cast_no_check
          (eq_refl (build_database (H := ascii_builtins) sample_rows true))).
  pose proof (@metadata_agrees_with_categories ascii_builtins KEYWORD_RULES
                OFF_CATEGORY_MAP sample_rows true _ Hrun) as Hagree.
  destruct (meta_db (final_state (build_database (H := ascii_builtins)
                                    sample_rows true))) as [mdb|] eqn:E;
    [|discriminate].
  exists mdb. split; [exact Hrun|]. split; [reflexivity | apply Hagree].
Defined.

Lemma distribution_accounts_for_entries_witness :
  exists st dist,
    build_database (H := ascii_builtins) sample_rows false = Ok st /\
    category_distribution (map snd (map_to_list (category_db st))) ∅ = Some dist /\
    sum_counts (printed_distribution dist) = Z.of_nat (size (category_db st)).
Proof.
  exists (final_state (build_database (H := ascii_builtins) sample_rows false)).
  assert (Hrun : build_database_in (H := ascii_builtins) KEYWORD_RULES
                   OFF_CATEGORY_MAP sample_rows false
                 = Ok (final_state (build_database (H := ascii_builtins)
                                      sample_rows false))) by reflexivity.
  destruct (@distribution_accounts_for_entries ascii_builtins KEYWORD_RULES
              OFF_CATEGORY_MAP sample_rows false _ _ Hrun (Permutation_refl _))
    as (dist & Hdist & _ & _ & Hsum).
  exists dist. split; [exact Hrun|]. split; [exact Hdist | exact Hsum].
Defined.

Lemma metadata_records_well_formed_witness :
  exists st mdb meta,
    build_database (H := ascii_builtins) sample_rows true = Ok st /\
    meta_db st = Some mdb /\ mdb !! u "whole milk" = Some meta /\
    meta !! "kcal"%string = Some (MInt 64) /\
    forall k v, meta !! k = Some v -> meta_field k v.
Proof.
  exists (final_state (build_database (H := ascii_builtins) sample_rows true)).
  exists (default ∅ (meta_db (final_state
            (build_database (H := ascii_builtins) sample_rows true)))).
  exists (default ∅ (default ∅ (meta_db (final_state
            (build_database (H := ascii_builtins) sample_rows true)))
          !! u "whole milk")).
  assert (Hrun : build_database_in (H := ascii_builtins) KEYWORD_RULES
                   OFF_CATEGORY_MAP sample_rows true
                 = Ok (final_state (build_database (H := ascii_builtins)
                                      sample_rows true)))
    by (vm_cast_no_check
          (eq_refl (build_database (H := ascii_builtins) sample_rows true))).
  assert (Hdb : meta_db (final_state (build_database (H := ascii_builtins)
                                        sample_rows true))
                = Some (default ∅ (meta_db (final_state
                          (build_database (H := ascii_builtins) sample_rows true)))))
    by (vm_cast_no_check
          (eq_refl (meta_db (final_state (build_database (H := ascii_builtins)
                                            sample_rows true))))).
  assert (Hname : default ∅ (meta_db (final_state
                     (build_database (H := ascii_builtins) sample_rows true)))
                  !! u "whole milk"
                  = Some (default ∅ (default ∅ (meta_db (final_state
                       (build_database (H := ascii_builtins) sample_rows true)))
                     !! u "whole milk")))
    by (vm_cast_no_check
          (eq_refl (default ∅ (meta_db (final_state
                      (build_database (H := ascii_builtins) sample_rows true)))
                    !! u "whole milk"))).
  split; [exact Hrun|]. split; [exact Hdb|]. split; [exact Hname|].
  split.
  - vm_cast_no_check (eq_refl (Some (MInt (H := ascii_builtins) 64))).
  - apply (@metadata_records_well_formed ascii_builtins KEYWORD_RULES
             OFF_CATEGORY_MAP sample_rows true _ _ _ _ Hrun Hdb Hname).
Defined.

Lemma nonfinite_nutrients_are_stored_witness :
  exists meta,
    collect_meta (H := ascii_builtins) nan_row 5 = Ok meta /\
    meta !! "protein"%string = Some (MFloat (H := ascii_builtins) S754_nan) /\
    meta !! "kcal"%string = None.
Proof.
  exists (built_meta (collect_meta (H := ascii_builtins) nan_row 5)).
  assert (Hrun : collect_meta (H := ascii_builtins) nan_row 5
                 = Ok (built_meta (collect_meta (H := ascii_builtins) nan_row 5)))
    by (vm_cast_no_check (eq_refl (collect_meta (H := ascii_builtins) nan_row 5))).
  destruct (nonfinite_nutrients_are_stored nan_row 5 _ Hrun) as [Hnut Hkcal].
  split; [exact Hrun|]. split.
  - apply (Hnut "proteins_100g"%string "protein"%string 1%nat (u " NaN")).
    + left. reflexivity.
    + vm_compute. reflexivity.
    + vm_compute. reflexivity.
    + left. reflexivity.
  - apply (Hkcal (u "nan")); vm_compute; reflexivity.
Defined.
